(** * Booking wizard of the paintball venue: availability, form, confirmation, controller

    Shallow embedding of
      - AppointmentCalendar  (the availability engine),
      - PatientForm          (the contact form and its zod schema),
      - BookingConfirmation  (the confirm action on localStorage),
      - BookingModal and the Booking page (the wizard controllers),
    followed by the properties the specification states about them. *)

From Stdlib Require Import ZArith Lia Bool.
From stdpp Require Import base decidable option list strings pretty gmap fin_maps.

Local Open Scope Z_scope.

(** ** JavaScript dates and the date-fns functions the calendar uses

    A [Date] is its time value: milliseconds since the epoch, an integer.
    Invalid dates (NaN) are left out: the calendar widget and the system clock
    only hand out valid ones.  Local time is UTC shifted by [zone]
    milliseconds; the shift is taken constant (no daylight-saving change
    inside the booking window), so every local day has [ms_per_day]
    milliseconds. *)
Module DateFns.

Definition Date : Type := Z.

Definition ms_per_day : Z := 86400000.

(** Days since 1970-01-01 to (year, month, day) of the proleptic Gregorian
    calendar, months counted from 1. *)
Definition civil_from_days (z : Z) : Z * Z * Z :=
  let z' := z + 719468 in
  let era := z' / 146097 in
  let doe := z' mod 146097 in
  let yoe := (doe - doe / 1460 + doe / 36524 - doe / 146096) / 365 in
  let doy := doe - (365 * yoe + yoe / 4 - yoe / 100) in
  let mp := (5 * doy + 2) / 153 in
  let d := doy - (153 * mp + 2) / 5 + 1 in
  let m := if mp <? 10 then mp + 3 else mp - 9 in
  let y := yoe + era * 400 + (if m <=? 2 then 1 else 0) in
  (y, m, d).

(** The inverse direction, used to name calendar days in examples. *)
Definition days_from_civil (y m d : Z) : Z :=
  let y' := if m <=? 2 then y - 1 else y in
  let era := y' / 400 in
  let yoe := y' mod 400 in
  let mp := if 2 <? m then m - 3 else m + 9 in
  let doy := (153 * mp + 2) / 5 + d - 1 in
  let doe := yoe * 365 + yoe / 4 - yoe / 100 + doy in
  era * 146097 + doe - 719468.

(** addLeadingZeros of date-fns, for a non-negative number. *)
Definition addLeadingZeros (n : Z) (width : nat) : string :=
  let s := pretty (Z.to_N n) in
  String.concat "" (replicate (width - String.length s)%nat "0"%string) +:+ s.

Section Zone.

Variable zone : Z.

Definition local_ms (t : Date) : Z := t + zone.

(** Number of the local calendar day [t] falls in. *)
Definition localDay (t : Date) : Z := local_ms t / ms_per_day.

(** The instant at which local calendar day [d] starts. *)
Definition midnight_of (d : Z) : Date := d * ms_per_day - zone.

Definition startOfDay (t : Date) : Date := t - local_ms t mod ms_per_day.

Definition addDays (t : Date) (amount : Z) : Date := t + amount * ms_per_day.

Definition isBefore (date dateToCompare : Date) : bool := date <? dateToCompare.

Definition isAfter (date dateToCompare : Date) : bool := dateToCompare <? date.

(** Date.prototype.getDay: 0 is Sunday; 1970-01-01 was a Thursday. *)
Definition getDay (t : Date) : Z := (localDay t + 4) mod 7.

(** format(date, 'yyyy-MM-dd'): the token [yyyy] prints the year of the era
    (year 0 and before count backwards from 1), padded to four digits. *)
Definition format_yyyy_MM_dd (t : Date) : string :=
  let '(y, m, d) := civil_from_days (localDay t) in
  let year_of_era := if 0 <? y then y else 1 - y in
  addLeadingZeros year_of_era 4 +:+ "-" +:+ addLeadingZeros m 2
    +:+ "-" +:+ addLeadingZeros d 2.

End Zone.

(** Date.prototype.toISOString, always in UTC: years 0 to 9999 print with four
    digits, the others with a sign and six. *)
Definition toISOString (t : Date) : string :=
  let '(y, m, d) := civil_from_days (t / ms_per_day) in
  let r := t mod ms_per_day in
  let year :=
    if Z.leb 0 y && Z.leb y 9999 then addLeadingZeros y 4
    else (if Z.ltb y 0 then "-" else "+") +:+ addLeadingZeros (Z.abs y) 6 in
  year +:+ "-" +:+ addLeadingZeros m 2 +:+ "-" +:+ addLeadingZeros d 2
    +:+ "T" +:+ addLeadingZeros (r / 3600000) 2
    +:+ ":" +:+ addLeadingZeros (r mod 3600000 / 60000) 2
    +:+ ":" +:+ addLeadingZeros (r mod 60000 / 1000) 2
    +:+ "." +:+ addLeadingZeros (r mod 1000) 3 +:+ "Z".

End DateFns.

(** ** JavaScript values, JSON and localStorage *)
Module JS.

(** The values a booking object holds. *)
Inductive jsval : Type :=
  | JUndefined
  | JNull
  | JBool (b : bool)
  | JNum (n : Z)
  | JStr (s : string).

#[global] Instance jsval_eq_dec : EqDecision jsval.
Proof. solve_decision. Defined.

(** What JSON text can hold of them: everything but [undefined]. *)
Inductive json : Type :=
  | JsonNull
  | JsonBool (b : bool)
  | JsonNum (n : Z)
  | JsonStr (s : string).

#[global] Instance json_eq_dec : EqDecision json.
Proof. solve_decision. Defined.

(** JSON.stringify on a property value: a property holding [undefined] is
    not written. *)
Definition stringify_value (v : jsval) : option json :=
  match v with
  | JUndefined => None
  | JNull => Some JsonNull
  | JBool b => Some (JsonBool b)
  | JNum n => Some (JsonNum n)
  | JStr s => Some (JsonStr s)
  end.

(** JSON.parse on a property value. *)
Definition parse_value (j : json) : jsval :=
  match j with
  | JsonNull => JNull
  | JsonBool b => JBool b
  | JsonNum n => JNum n
  | JsonStr s => JStr s
  end.

(** A plain object: own properties by name. *)
Abbreviation object := (gmap string jsval).
Abbreviation json_object := (gmap string json).

Definition stringify_object (o : object) : json_object := omap stringify_value o.
Definition parse_object (j : json_object) : object := parse_value <$> j.

(** The string under a localStorage key, by what [JSON.parse(item || '[]')]
    makes of it. *)
Inductive stored (A : Type) : Type :=
  | Absent                 (* getItem gives null or the empty string *)
  | Malformed              (* JSON.parse throws *)
  | Array (items : list A) (* a JSON array of records *).
Arguments Absent {A}.
Arguments Malformed {A}.
Arguments Array {A} items.

(** [JSON.parse(localStorage.getItem(key) || '[]')]; [None] is a throw. *)
Definition parse_or_empty {A} (s : stored A) : option (list A) :=
  match s with
  | Absent => Some []
  | Malformed => None
  | Array items => Some items
  end.

End JS.
Import JS.

(** ** AppointmentCalendar: the availability engine *)
Module AppointmentCalendar.
Import DateFns.

(** A record under the key [appointments]. *)
Record appointment : Type := {
  appointment_date : string;
  appointment_time : string;
  status : string
}.

(** A record under the key [unavailable_schedules]; a full-day entry may
    carry no time. *)
Record schedule : Type := {
  unavailable_date : string;
  is_full_day : bool;
  unavailable_time : option string
}.

(** The component's state hooks. *)
Record state : Type := {
  selected : option Date;
  selectedTimeSlot : string;
  bookedSlots : gmap string (list string);
  unavailableSchedules : list schedule
}.

Definition timeSlots : list string :=
  ["09:00"; "09:30"; "10:00"; "10:30"; "11:00"; "11:30";
   "14:00"; "14:30"; "15:00"; "15:30"; "16:00"; "16:30"; "17:00"]%string.

(** useState initial values; [selectedDate] has gone through parseISO. *)
Definition initial (selectedDate : option Date) (selectedTime : string) : state :=
  {| selected := selectedDate;
     selectedTimeSlot := selectedTime;
     bookedSlots := ∅;
     unavailableSchedules := [] |}.

(** The names a plain object inherits from Object.prototype, whatever its
    own properties. *)
Definition Object_prototype : list string :=
  ["constructor"; "hasOwnProperty"; "isPrototypeOf"; "propertyIsEnumerable";
   "toLocaleString"; "toString"; "valueOf"; "__proto__";
   "__defineGetter__"; "__defineSetter__"; "__lookupGetter__";
   "__lookupSetter__"]%string.

(** What [bookedByDate[dateKey]] finds on the plain object [{}]: an array
    the loop put there, a member of Object.prototype (a function or the
    prototype itself, truthy and without [push]), or undefined. *)
Inductive property : Type :=
  | OwnArray (times : list string)
  | Inherited
  | Undefined.

Definition get (bookedByDate : gmap string (list string)) (dateKey : string)
    : property :=
  match bookedByDate !! dateKey with
  | Some times => OwnArray times
  | None =>
      if bool_decide (dateKey ∈ Object_prototype) then Inherited else Undefined
  end.

(** The body of the forEach in loadBookedAppointments; [None] is a throw:
    under an inherited name no array is created, and calling [push] on what
    is found there is a TypeError. *)
Definition record_appointment (bookedByDate : gmap string (list string))
    (apt : appointment) : option (gmap string (list string)) :=
  if bool_decide (status apt ≠ "Didn't show up"%string) then
    let dateKey := appointment_date apt in
    match get bookedByDate dateKey with
    | Undefined => Some (<[dateKey := [] ++ [appointment_time apt]]> bookedByDate)
    | OwnArray times =>
        Some (<[dateKey := times ++ [appointment_time apt]]> bookedByDate)
    | Inherited => None
    end
  else Some bookedByDate.

(** Array.prototype.forEach with a callback that may throw: the first throw
    ends the loop. *)
Fixpoint forEach {A S : Type} (callback : S → A → option S) (items : list A)
    (acc : S) : option S :=
  match items with
  | [] => Some acc
  | item :: rest =>
      match callback acc item with
      | Some acc' => forEach callback rest acc'
      | None => None
      end
  end.

(** loadBookedAppointments: a throw, of JSON.parse or inside the loop, is
    caught and logged; setBookedSlots is then never called and the state
    stays as it was. *)
Definition loadBookedAppointments (ls : stored appointment) (st : state) : state :=
  match parse_or_empty ls with
  | Some appointments =>
      match forEach record_appointment appointments ∅ with
      | Some bookedByDate =>
          {| selected := selected st;
             selectedTimeSlot := selectedTimeSlot st;
             bookedSlots := bookedByDate;
             unavailableSchedules := unavailableSchedules st |}
      | None => st
      end
  | None => st
  end.

Definition loadUnavailableSchedules (ls : stored schedule) (st : state) : state :=
  match parse_or_empty ls with
  | Some schedules =>
      {| selected := selected st;
         selectedTimeSlot := selectedTimeSlot st;
         bookedSlots := bookedSlots st;
         unavailableSchedules := schedules |}
  | None => st
  end.

(** The mount effect. *)
Definition mount (appointments : stored appointment)
    (schedules : stored schedule) (st : state) : state :=
  loadUnavailableSchedules schedules (loadBookedAppointments appointments st).

Section Zone.

Variable zone : Z.

(** [now] is the reading of [new Date()]. *)
Definition isDateDisabled (now : Date) (st : state) (date : Date) : bool :=
  let today := startOfDay zone now in
  let maxDate := addDays today 60 in
  if isBefore date today || isAfter date maxDate then true
  else if bool_decide (getDay zone date = 0) then true
  else
    let dateStr := format_yyyy_MM_dd zone date in
    existsb (fun schedule =>
      bool_decide (unavailable_date schedule = dateStr) && is_full_day schedule)
      (unavailableSchedules st).

(** The key of the lookup is a formatted date; it holds a "-" and so is no
    name of Object.prototype: the lookup finds an array of the loader or
    nothing. *)
Definition isTimeSlotAvailable (st : state) (time : string) : bool :=
  match selected st with
  | None => false
  | Some sel =>
      let selectedDateStr := format_yyyy_MM_dd zone sel in
      let bookedTimes := default [] (bookedSlots st !! selectedDateStr) in
      if bool_decide (time ∈ bookedTimes) then false
      else
        let isUnavailable :=
          existsb (fun schedule =>
            bool_decide (unavailable_date schedule = selectedDateStr)
            && negb (is_full_day schedule)
            && bool_decide (unavailable_time schedule = Some time))
            (unavailableSchedules st) in
        negb isUnavailable
  end.

Definition getAvailableTimesCount (st : state) : nat :=
  match selected st with
  | None => 0%nat
  | Some _ => length (filter (fun time => isTimeSlotAvailable st time = true) timeSlots)
  end.

End Zone.

Definition handleDateSelect (date : option Date) (st : state) : state :=
  {| selected := date;
     selectedTimeSlot := "";
     bookedSlots := bookedSlots st;
     unavailableSchedules := unavailableSchedules st |}.

Definition handleTimeSelect (time : string) (st : state) : state :=
  {| selected := selected st;
     selectedTimeSlot := time;
     bookedSlots := bookedSlots st;
     unavailableSchedules := unavailableSchedules st |}.

(** handleContinue: the pair handed to onDateTimeSelect, if any. *)
Definition handleContinue (zone : Z) (st : state) : option (string * string) :=
  match selected st with
  | Some sel =>
      if bool_decide (selectedTimeSlot st ≠ ""%string)
      then Some (format_yyyy_MM_dd zone sel, selectedTimeSlot st)
      else None
  | None => None
  end.

End AppointmentCalendar.

(** ** PatientForm: the contact form and its schema *)
Module PatientForm.

(** The values react-hook-form hands to the resolver: text inputs are
    strings, and the number input, read with valueAsNumber, is a number or NaN
    ([None]).  Whole numbers stand for the numbers of the group-size field. *)
Record BookingFormData : Type := {
  customerName : string;
  email : string;
  phone : string;
  service : string;
  groupSize : option Z;
  specialRequests : string;
  emergencyContact : string;
  experience : string
}.

Inductive issue_code : Type := too_small | too_big | invalid_string | invalid_type.

(** A zod issue, as the resolver turns it into a field error. *)
Record issue : Type := {
  path : string;
  code : issue_code;
  message : string
}.

#[global] Instance issue_code_eq_dec : EqDecision issue_code.
Proof. solve_decision. Defined.

#[global] Instance issue_eq_dec : EqDecision issue.
Proof. solve_decision. Defined.

(** z.string().min(n, message): the length of the string, in characters. *)
Definition string_min (field : string) (n : nat) (msg : string) (value : string)
    : list issue :=
  if (String.length value <? n)%nat
  then [ {| path := field; code := too_small; message := msg |} ]
  else [].

Definition number_min (field : string) (n : Z) (msg : string) (value : Z)
    : list issue :=
  if value <? n then [ {| path := field; code := too_small; message := msg |} ]
  else [].

Definition number_max (field : string) (n : Z) (msg : string) (value : Z)
    : list issue :=
  if n <? value then [ {| path := field; code := too_big; message := msg |} ]
  else [].

Section Schema.

(** zod's own e-mail pattern. *)
Variable is_email : string → bool.

(** z.string().email(message).optional().or(z.literal('')) on a string. *)
Definition email_or_empty (value : string) : list issue :=
  if bool_decide (value = ""%string) || is_email value then []
  else [ {| path := "email"; code := invalid_string;
            message := "Invalid email address" |} ].

(** z.number().min(1, ...).max(50, ...); NaN is not a number for zod. *)
Definition group_size (value : option Z) : list issue :=
  match value with
  | None => [ {| path := "groupSize"; code := invalid_type;
                 message := "Expected number, received nan" |} ]
  | Some n =>
      number_min "groupSize" 1 "Group size must be at least 1" n
      ++ number_max "groupSize" 50 "Maximum group size is 50" n
  end.

(** bookingSchema: the issues of a submitted record, field by field. *)
Definition bookingSchema (data : BookingFormData) : list issue :=
  string_min "customerName" 2 "Name must be at least 2 characters" (customerName data)
  ++ email_or_empty (email data)
  ++ string_min "phone" 10 "Phone number must be at least 10 digits" (phone data)
  ++ string_min "service" 1 "Please select a service" (service data)
  ++ group_size (groupSize data).

(** The validated record as the object given to onSubmit. *)
Definition to_object (data : BookingFormData) : object :=
  list_to_map [
    ("customerName", JStr (customerName data));
    ("email", JStr (email data));
    ("phone", JStr (phone data));
    ("service", JStr (service data));
    ("groupSize", from_option JNum JUndefined (groupSize data));
    ("specialRequests", JStr (specialRequests data));
    ("emergencyContact", JStr (emergencyContact data));
    ("experience", JStr (experience data)) ]%string.

(** handleSubmit(handleFormSubmit): onSubmit is called, with the record, only
    when the resolver reports no issue. *)
Definition handleSubmit (data : BookingFormData) : option object :=
  match bookingSchema data with
  | [] => Some (to_object data)
  | _ :: _ => None
  end.

End Schema.

(** A decimal digit. *)
Definition is_digit (c : Ascii.ascii) : bool :=
  let n := Ascii.nat_of_ascii c in (48 <=? n)%nat && (n <=? 57)%nat.

(** The number of decimal digits in a string: what the specification and
    the message of the phone rule count. *)
Definition digits (s : string) : nat :=
  length (List.filter is_digit (String.list_ascii_of_string s)).

End PatientForm.

(** ** BookingModal and the Booking page: the wizard controllers *)
Module Wizard.

(** The two hosts of the wizard: the dialog and the page. *)
Inductive host : Type := Modal | Page.

Record state : Type := {
  currentStep : Z;
  bookingData : object
}.

(** useState(1) and useState({}). *)
Definition initial : state := {| currentStep := 1; bookingData := ∅ |}.

(** [{ ...prev, ...data }]: the properties of [data] win. *)
Definition handleStepComplete (data : object) (st : state) : state :=
  {| currentStep := currentStep st + 1;
     bookingData := data ∪ bookingData st |}.

Definition handleBack (st : state) : state :=
  {| currentStep := currentStep st - 1;
     bookingData := bookingData st |}.

(** The dialog resets its state and tells its parent; the page navigates
    home and leaves its state alone. *)
Definition handleClose (h : host) (st : state) : state :=
  match h with
  | Modal => initial
  | Page => st
  end.

(** What renderStep puts on screen. *)
Inductive view : Type :=
  | AppointmentCalendarView
  | PatientFormView
  | BookingConfirmationView
  | NoView.

Definition renderStep (st : state) : view :=
  if bool_decide (currentStep st = 1) then AppointmentCalendarView
  else if bool_decide (currentStep st = 2) then PatientFormView
  else if bool_decide (currentStep st = 3) then BookingConfirmationView
  else NoView.

(** The callbacks a host can receive. *)
Inductive event : Type :=
  | DateTimeSelect (date time : string)  (* onDateTimeSelect of the calendar *)
  | Submit (data : object)               (* onSubmit of the form *)
  | Back                                 (* onBack of the form or the confirmation *)
  | Close.                               (* onClose of the confirmation, onOpenChange
                                            of the dialog, the page's way home *)

(** The callbacks the rendered view is given.  Closing is always possible:
    the dialog and the page header offer it at every step, and the timer of
    a confirmation may fire after the user has gone back. *)
Definition wired (v : view) (e : event) : bool :=
  match e, v with
  | DateTimeSelect _ _, AppointmentCalendarView => true
  | Submit _, PatientFormView => true
  | Back, PatientFormView => true
  | Back, BookingConfirmationView => true
  | Close, _ => true
  | _, _ => false
  end.

Definition handle (h : host) (e : event) (st : state) : state :=
  match e with
  | DateTimeSelect date time =>
      handleStepComplete {[ "bookingDate" := JStr date; "bookingTime" := JStr time ]} st
  | Submit data => handleStepComplete data st
  | Back => handleBack st
  | Close => handleClose h st
  end.

(** One callback, if the current view is given it. *)
Definition dispatch (h : host) (e : event) (st : state) : option state :=
  if wired (renderStep st) e then Some (handle h e st) else None.

(** The states a host can be in. *)
Inductive reachable (h : host) : state → Prop :=
  | reachable_initial : reachable h initial
  | reachable_dispatch st e st' :
      reachable h st → dispatch h e st = Some st' → reachable h st'.

(** A run of callbacks from a state; [None] when one of them is not wired. *)
Fixpoint run (h : host) (es : list event) (st : state) : option state :=
  match es with
  | [] => Some st
  | e :: es' =>
      match dispatch h e st with
      | Some st' => run h es' st'
      | None => None
      end
  end.

End Wizard.

(** ** BookingConfirmation: the confirm action *)
Module BookingConfirmation.
Import DateFns.

(** What the action does to the outside, in order. *)
Inductive effect : Type :=
  | SetIsSubmitting (b : bool)
  | ConsoleError
  | Toast (title : string) (destructive : bool)
  | SetTimeout_onClose (delay : Z).

#[global] Instance effect_eq_dec : EqDecision effect.
Proof. solve_decision. Defined.

(** The browser around the action: the system clock as the sequence of its
    readings, how many of them were taken, the string under the key
    [paintball_bookings], whether localStorage can be read and whether it
    takes a write (quota), and the effects so far. *)
Record world : Type := {
  clock : nat → Z;
  reads : nat;
  paintball_bookings : stored json_object;
  readable : bool;
  writable : bool;
  trace : list effect
}.

(** A statement either completes with a value or throws. *)
Inductive outcome (A : Type) : Type :=
  | Return (a : A)
  | Throw.
Arguments Return {A} a.
Arguments Throw {A}.

Definition M (A : Type) : Type := world → outcome A * world.

#[global] Instance M_ret : MRet M := fun A a w => (Return a, w).

#[global] Instance M_bind : MBind M := fun A B f m w =>
  match m w with
  | (Return a, w') => f a w'
  | (Throw, w') => (Throw, w')
  end.

Definition throw {A} : M A := fun w => (Throw, w).

(** try { body } catch { handler } finally { final } *)
Definition try_catch_finally (body handler final : M ()) : M () := fun w =>
  let '(r, w1) :=
    match body w with
    | (Return a, w') => (Return a, w')
    | (Throw, w') => handler w'
    end in
  match final w1 with
  | (Return _, w2) => (r, w2)
  | (Throw, w2) => (Throw, w2)
  end.

Definition emit (e : effect) : M () := fun w =>
  (Return (),
   {| clock := clock w; reads := reads w;
      paintball_bookings := paintball_bookings w;
      readable := readable w; writable := writable w;
      trace := trace w ++ [e] |}).

(** One reading of the system clock: Date.now() and new Date(). *)
Definition read_clock : M Z := fun w =>
  (Return (clock w (reads w)),
   {| clock := clock w; reads := S (reads w);
      paintball_bookings := paintball_bookings w;
      readable := readable w; writable := writable w;
      trace := trace w |}).

Definition Date_now : M Z := read_clock.
Definition new_Date : M Date := read_clock.

(** localStorage.getItem('paintball_bookings') *)
Definition getItem : M (stored json_object) := fun w =>
  if readable w then (Return (paintball_bookings w), w) else (Throw, w).

(** JSON.parse(item || '[]'), the records as objects in memory. *)
Definition JSON_parse (item : stored json_object) : M (list object) :=
  match parse_or_empty item with
  | Some records => mret (parse_object <$> records)
  | None => throw
  end.

(** localStorage.setItem('paintball_bookings', JSON.stringify(records)): the
    string is replaced as a whole, or the call throws and nothing changes. *)
Definition setItem (records : list object) : M () := fun w =>
  if writable w then
    (Return (),
     {| clock := clock w; reads := reads w;
        paintball_bookings := Array (stringify_object <$> records);
        readable := readable w; writable := writable w;
        trace := trace w |})
  else (Throw, w).

(** The object literal of the booking: later properties replace earlier ones
    of the same name. *)
Definition booking_of (bookingId : string) (bookingData : object)
    (created updated booked : Date) : object :=
  <["booked_at" := JStr (toISOString booked)]>
    (<["updated_at" := JStr (toISOString updated)]>
      (<["created_at" := JStr (toISOString created)]>
        (<["status" := JStr "Pending"]>
          (bookingData ∪ {["id" := JStr bookingId]})))).

Definition handleConfirmBooking (bookingData : object) : M () :=
  emit (SetIsSubmitting true);;
  try_catch_finally
    (now ← Date_now;
     let bookingId := pretty now in
     created ← new_Date;
     updated ← new_Date;
     booked ← new_Date;
     let booking := booking_of bookingId bookingData created updated booked in
     item ← getItem;
     existingBookings ← JSON_parse item;
     setItem (existingBookings ++ [booking]);;
     emit (Toast "Paintball Session Booked Successfully!" false);;
     emit (SetTimeout_onClose 2000))
    (emit ConsoleError;;
     emit (Toast "Booking Failed" true))
    (emit (SetIsSubmitting false)).

(** The records under the key. *)
Definition records (w : world) : list json_object :=
  default [] (parse_or_empty (paintball_bookings w)).

(** A browser before the action: the clock readings to come are [tick 0],
    [tick 1], ... *)
Definition browser (tick : nat → Z) (item : stored json_object)
    (can_read can_write : bool) : world :=
  {| clock := tick; reads := 0;
     paintball_bookings := item;
     readable := can_read; writable := can_write;
     trace := [] |}.

End BookingConfirmation.

(** ** The confirmation inside its host *)
Module App.
Import Wizard BookingConfirmation.

(** The timeouts among the effects of a confirm action, once they fire: each
    calls onClose, which both hosts bind to their handleClose. *)
Definition fire_timers (h : host) (effects : list effect) (st : state) : state :=
  foldl (fun st e =>
           match e with
           | SetTimeout_onClose _ => handleClose h st
           | _ => st
           end) st effects.

(** The effects an action added to the trace of [w]. *)
Definition effects_since (w w' : world) : list effect :=
  drop (length (trace w)) (trace w').

End App.

(** ** What the availability rules speak about *)
Module AvailabilitySpec.
Import DateFns AppointmentCalendar.

(** The date has a full-day entry among the unavailable schedules. *)
Definition has_full_day_entry (zone : Z) (st : state) (date : Date) : Prop :=
  ∃ s, s ∈ unavailableSchedules st
       ∧ unavailable_date s = format_yyyy_MM_dd zone date
       ∧ is_full_day s = true.

(** The date has an entry that is not full-day and names [time]. *)
Definition has_partial_entry (zone : Z) (st : state) (date : Date)
    (time : string) : Prop :=
  ∃ s, s ∈ unavailableSchedules st
       ∧ unavailable_date s = format_yyyy_MM_dd zone date
       ∧ is_full_day s = false
       ∧ unavailable_time s = Some time.

(** An appointment that did not end as a no-show holds [time] on the day
    written [dateStr]. *)
Definition booked (appointments : list appointment) (dateStr time : string) : Prop :=
  ∃ a, a ∈ appointments
       ∧ status a ≠ "Didn't show up"%string
       ∧ appointment_date a = dateStr
       ∧ appointment_time a = time.

(** The string holds a "-" (character 45). *)
Definition holds_dash (s : string) : bool :=
  existsb (Ascii.eqb (Ascii.ascii_of_nat 45)) (String.list_ascii_of_string s).

(** No appointment that counts is dated with a name of Object.prototype:
    the loop of loadBookedAppointments runs to its end. *)
Definition loadable (appointments : list appointment) : Prop :=
  Forall (fun a => status a ≠ "Didn't show up"%string →
                   appointment_date a ∉ Object_prototype) appointments.

(** A stored record whose date is no date but the name of a member of
    Object.prototype. *)
Definition stray_record : appointment :=
  {| appointment_date := "constructor"; appointment_time := "09:00";
     status := "Confirmed" |}.

(** Local midnight of a day of January 2024; 2024-01-01 was a Monday. *)
Definition january_2024 (zone : Z) (day : Z) : Date :=
  midnight_of zone (days_from_civil 2024 1 day).

Definition confirmed_at_ten : appointment :=
  {| appointment_date := "2024-01-08"; appointment_time := "10:00";
     status := "Confirmed" |}.

Definition no_show_at_ten : appointment :=
  {| appointment_date := "2024-01-08"; appointment_time := "10:00";
     status := "Didn't show up" |}.

(** The calendar mounted on the given stored data, with a day picked. *)
Definition picked (appointments : stored appointment)
    (schedules : stored schedule) (date : Date) : state :=
  handleDateSelect (Some date) (mount appointments schedules (initial None "")).

(** A partial-day entry on Sunday 2024-01-07. *)
Definition sunday_morning : schedule :=
  {| unavailable_date := "2024-01-07"; is_full_day := false;
     unavailable_time := Some "10:00"%string |}.

(** A partial-day entry on Monday 2024-01-08. *)
Definition monday_morning : schedule :=
  {| unavailable_date := "2024-01-08"; is_full_day := false;
     unavailable_time := Some "10:00"%string |}.

End AvailabilitySpec.

(** ** A booking carried through the three steps *)
Module Scenario.
Import PatientForm Wizard.

(** A record that passes, but for its phone number. *)
Definition ann (phone_number : string) : BookingFormData :=
  {| customerName := "Ann Cruz";
     email := "";
     phone := phone_number;
     service := "Paintball Regular (P 700 + 30 bullets)";
     groupSize := Some 4;
     specialRequests := "";
     emergencyContact := "";
     experience := "First Time Player" |}.

(** The three steps done once, with a valid record. *)
Definition three_steps : list event :=
  [ DateTimeSelect "2024-01-08" "10:00";
    Submit (to_object (ann "1234567890")) ].

(** The state they lead to: the confirmation step. *)
Definition at_confirmation : state :=
  handleStepComplete (to_object (ann "1234567890"))
    (handleStepComplete
       {[ "bookingDate" := JStr "2024-01-08"; "bookingTime" := JStr "10:00" ]}
       initial).

(** The data of a wizard that reached the confirmation step. *)
Definition valid_booking : object := bookingData at_confirmation.

(** A clock that advances by a millisecond between two readings. *)
Definition ticking : nat → Z := fun n => 1704067200000 + Z.of_nat n.

(** A clock that stands still over the readings of one action. *)
Definition standing : nat → Z := fun _ => 1704067200000.

(** A wall clock that is set back after four readings. *)
Definition set_back : nat → Z := fun n =>
  if (n <? 4)%nat then 1704067200000 + Z.of_nat n
  else 1704067200000 + Z.of_nat (n - 4).

(** What a record shows of its status and its timestamps. *)
Definition stamps (r : json_object) :=
  (r !! "status", r !! "created_at", r !! "updated_at", r !! "booked_at").

End Scenario.

(** ** The rest of the calendar, the form and the hosts *)

(** The Continue button of the calendar. *)
Module CalendarControls.
Import AppointmentCalendar.

(** [disabled={!selected || !selectedTimeSlot}] *)
Definition continue_disabled (st : state) : bool :=
  match selected st with
  | None => true
  | Some _ => bool_decide (selectedTimeSlot st = ""%string)
  end.

(** The time panel of the calendar: a hint while no date is selected, a
    notice when the day has no slot left, else a button per slot in a
    morning and an afternoon block, each with its [disabled] flag. *)
Inductive panel : Type :=
  | PleaseSelectADate
  | NoAvailableTimes
  | Blocks (morning afternoon : list (string * bool)).

Section Panel.

Variable zone : Z.

Definition slot_button (st : state) (time : string) : string * bool :=
  (time, negb (isTimeSlotAvailable zone st time)).

(** [timeSlots.filter(time => time < '12:00')] and
    [timeSlots.filter(time => time >= '14:00')], strings compared character
    by character. *)
Definition timePanel (st : state) : panel :=
  match selected st with
  | None => PleaseSelectADate
  | Some _ =>
      if bool_decide (getAvailableTimesCount zone st = 0%nat) then NoAvailableTimes
      else Blocks
             (slot_button st <$> List.filter (fun time => String.ltb time "12:00") timeSlots)
             (slot_button st <$> List.filter (fun time => String.leb "14:00" time) timeSlots)
  end.

End Panel.

(** The times of the appointments of day [k] that count, in stored order. *)
Definition live_times (k : string) (appointments : list appointment) : list string :=
  appointment_time <$>
    filter (fun a => status a ≠ "Didn't show up"%string ∧ appointment_date a = k)
      appointments.

End CalendarControls.

(** The default values of the form, from the data the host hands down. *)
Module PatientFormDefaults.
Import PatientForm.

(** [initialData?.field || '']: the properties of a Partial<BookingData>
    are strings (groupSize a number) or missing; a missing property, like the
    empty string, gives the empty string. *)
Definition or_empty (v : option jsval) : string :=
  match v with
  | Some (JStr s) => s
  | _ => ""
  end.

(** [initialData?.groupSize || 1]: 0 is falsy. *)
Definition or_one (v : option jsval) : option Z :=
  match v with
  | Some (JNum n) => if bool_decide (n = 0) then Some 1 else Some n
  | _ => Some 1
  end.

Definition defaultValues (initialData : object) : BookingFormData :=
  {| customerName := or_empty (initialData !! "customerName");
     email := or_empty (initialData !! "email");
     phone := or_empty (initialData !! "phone");
     service := or_empty (initialData !! "service");
     groupSize := or_one (initialData !! "groupSize");
     specialRequests := or_empty (initialData !! "specialRequests");
     emergencyContact := or_empty (initialData !! "emergencyContact");
     experience := or_empty (initialData !! "experience") |}.

(** The names of the fields the schema knows. *)
Definition schema_keys : list string :=
  ["customerName"; "email"; "phone"; "service"; "groupSize";
   "specialRequests"; "emergencyContact"; "experience"]%string.

(** The rules of the schema, field by field. *)
Definition passes (is_email : string → bool) (data : BookingFormData) : Prop :=
  (2 ≤ String.length (customerName data))%nat
  ∧ (email data = ""%string ∨ is_email (email data) = true)
  ∧ (10 ≤ String.length (phone data))%nat
  ∧ (1 ≤ String.length (service data))%nat
  ∧ ∃ n, groupSize data = Some n ∧ 1 ≤ n ≤ 50.

End PatientFormDefaults.

(** The title and the progress row of the two hosts. *)
Module WizardChrome.
Import Wizard.

Definition getStepTitle (st : state) : string :=
  if bool_decide (currentStep st = 1) then "Select Date & Time"
  else if bool_decide (currentStep st = 2) then "Booking Information"
  else if bool_decide (currentStep st = 3) then "Confirmation"
  else "".

(** The entries of the progress row: number and title. *)
Definition steps : list (Z * string) :=
  [ (1, "Date & Time"); (2, "Details"); (3, "Confirmation") ]%string.

Definition isActive (st : state) (step : Z * string) : bool :=
  bool_decide (currentStep st = step.1).

Definition isCompleted (st : state) (step : Z * string) : bool :=
  step.1 <? currentStep st.

(** What the calendar of step 1 is given as its selection. *)
Definition selectedDate (st : state) : option jsval := bookingData st !! "bookingDate".
Definition selectedTime (st : state) : option jsval := bookingData st !! "bookingTime".

End WizardChrome.

(** Confirm actions one after the other, each on the world the one before
    left. *)
Module ConfirmRuns.
Import BookingConfirmation.

Fixpoint confirm_all (bookings : list object) (w : world) : world :=
  match bookings with
  | [] => w
  | bookingData :: rest => confirm_all rest (handleConfirmBooking bookingData w).2
  end.

(** The properties the action stamps itself. *)
Definition stamped : list string :=
  ["status"; "created_at"; "updated_at"; "booked_at"]%string.

(** The identifiers of the stored records. *)
Definition ids (w : world) : list (option json) :=
  (fun r : json_object => r !! "id") <$> records w.

(** What repeated actions keep: storage serves, the identifiers are pairwise
    different, and each was made from a reading before the next one. *)
Definition ids_in_order (w : world) : Prop :=
  readable w = true
  ∧ writable w = true
  ∧ is_Some (parse_or_empty (paintball_bookings w))
  ∧ NoDup (ids w)
  ∧ ∀ r, r ∈ records w →
      ∃ t, r !! "id" = Some (JsonStr (pretty t)) ∧ t < clock w (reads w).

(** Between the start of an action and the start of a later one the clock
    advances. *)
Definition clock_advances (w : world) : Prop :=
  ∀ n m : nat, (n + 4 ≤ m)%nat → clock w n < clock w m.

End ConfirmRuns.

(** The hosts with the components they render: the callbacks come from the
    calendar's Continue button and from the form's submit. *)
Module BookingApp.
Import Wizard.

(** The properties of a BookingData. *)
Definition booking_keys : list string :=
  ("bookingDate" :: "bookingTime" :: PatientFormDefaults.schema_keys)%string.

Section Components.

Variable zone : Z.
Variable is_email : string → bool.

(** The callbacks the components can make. *)
Inductive from_ui : event → Prop :=
  | from_calendar cal date time :
      AppointmentCalendar.handleContinue zone cal = Some (date, time) →
      from_ui (DateTimeSelect date time)
  | from_form form data :
      PatientForm.handleSubmit is_email form = Some data →
      from_ui (Submit data)
  | from_back : from_ui Back
  | from_close : from_ui Close.

(** The states a host reaches when driven by its components. *)
Inductive reachable_ui (h : host) : state → Prop :=
  | reachable_ui_initial : reachable_ui h initial
  | reachable_ui_dispatch st e st' :
      reachable_ui h st → from_ui e → dispatch h e st = Some st' →
      reachable_ui h st'.

End Components.

(** What a host driven by its components holds at every step. *)
Definition well_filled (zone : Z) (is_email : string → bool) (st : state) : Prop :=
  (∀ k : string, is_Some (bookingData st !! k) → k ∈ booking_keys)
  ∧ (2 ≤ currentStep st →
     ∃ sel time,
       bookingData st !! "bookingDate"
       = Some (JStr (DateFns.format_yyyy_MM_dd zone sel))
       ∧ bookingData st !! "bookingTime" = Some (JStr time)
       ∧ time ≠ ""%string)
  ∧ (currentStep st = 3 →
     ∃ form,
       PatientFormDefaults.passes is_email form
       ∧ ∀ k : string, k ∈ PatientFormDefaults.schema_keys →
           bookingData st !! k = PatientForm.to_object form !! k).

End BookingApp.

(** * Properties *)

(** ** Calendar arithmetic *)
Module DateFacts.
Import DateFns.

Example civil_from_days_epoch : civil_from_days 0 = (1970, 1, 1).
Proof. reflexivity. Qed.

Example civil_from_days_leap_day :
  civil_from_days (days_from_civil 2024 2 29) = (2024, 2, 29)
  ∧ civil_from_days (days_from_civil 2024 2 29 + 1) = (2024, 3, 1).
Proof. split; reflexivity. Qed.

Example format_in_a_zone :
  format_yyyy_MM_dd 28800000 1704067200000 = "2024-01-01"%string
  ∧ format_yyyy_MM_dd (-28800000) 1704067200000 = "2023-12-31"%string
  ∧ toISOString 1704067200000 = "2024-01-01T00:00:00.000Z"%string.
Proof. repeat split. Qed.

Lemma localDay_midnight_of zone d : localDay zone (midnight_of zone d) = d.
Proof.
  unfold localDay, local_ms, midnight_of, ms_per_day.
  replace (d * 86400000 - zone + zone) with (d * 86400000) by lia.
  apply Z.div_mul. lia.
Qed.

Lemma startOfDay_midnight zone t :
  startOfDay zone t = midnight_of zone (localDay zone t).
Proof.
  unfold startOfDay, midnight_of, localDay, local_ms, ms_per_day.
  pose proof (Z.div_mod (t + zone) 86400000). lia.
Qed.

Lemma startOfDay_midnight_of zone d :
  startOfDay zone (midnight_of zone d) = midnight_of zone d.
Proof. by rewrite startOfDay_midnight, localDay_midnight_of. Qed.

Lemma addDays_midnight_of zone d n :
  addDays (midnight_of zone d) n = midnight_of zone (d + n).
Proof. unfold addDays, midnight_of. lia. Qed.

(** An instant lies before the start of day [d] exactly when its own day
    does. *)
Lemma before_midnight zone t d :
  t < midnight_of zone d ↔ localDay zone t < d.
Proof.
  unfold midnight_of, localDay, local_ms, ms_per_day.
  pose proof (Z.div_mod (t + zone) 86400000).
  pose proof (Z.mod_pos_bound (t + zone) 86400000). lia.
Qed.

Lemma midnight_of_lt zone d1 d2 :
  midnight_of zone d1 < midnight_of zone d2 ↔ d1 < d2.
Proof. unfold midnight_of, ms_per_day. lia. Qed.

Lemma getDay_range zone t : 0 ≤ getDay zone t < 7.
Proof. unfold getDay. apply Z.mod_pos_bound. lia. Qed.

(** Seven days later is the same day of the week. *)
Lemma getDay_addDays_7 zone t : getDay zone (addDays t 7) = getDay zone t.
Proof.
  unfold getDay, localDay, local_ms, addDays, ms_per_day.
  replace (t + 7 * 86400000 + zone) with (t + zone + 7 * 86400000) by lia.
  rewrite Z.div_add by lia.
  replace ((t + zone) / 86400000 + 7 + 4) with ((t + zone) / 86400000 + 4 + 1 * 7) by lia.
  apply Z.mod_add. lia.
Qed.

End DateFacts.

(** ** The availability engine *)
Module Availability.
Import DateFns DateFacts AppointmentCalendar AvailabilitySpec CalendarControls.

Lemma existsb_elem_of {A} (f : A → bool) (l : list A) :
  existsb f l = true ↔ ∃ x, x ∈ l ∧ f x = true.
Proof.
  rewrite existsb_exists. split; intros (x & Hx & Hf); exists x; split; auto;
    by apply list_elem_of_In.
Qed.

Lemma full_day_scan zone st date :
  existsb (fun schedule =>
    bool_decide (unavailable_date schedule = format_yyyy_MM_dd zone date)
    && is_full_day schedule) (unavailableSchedules st) = true
  ↔ has_full_day_entry zone st date.
Proof.
  rewrite existsb_elem_of. unfold has_full_day_entry.
  split; intros (s & Hs & H); exists s.
  - apply andb_true_iff in H as [H1 H2]. apply bool_decide_eq_true in H1. auto.
  - destruct H as [H1 H2]. split; [done|].
    apply andb_true_iff. split; [by apply bool_decide_eq_true | done].
Qed.

Lemma partial_scan zone st date time :
  existsb (fun schedule =>
    bool_decide (unavailable_date schedule = format_yyyy_MM_dd zone date)
    && negb (is_full_day schedule)
    && bool_decide (unavailable_time schedule = Some time))
    (unavailableSchedules st) = true
  ↔ has_partial_entry zone st date time.
Proof.
  rewrite existsb_elem_of. unfold has_partial_entry.
  split; intros (s & Hs & H); exists s.
  - apply andb_true_iff in H as [H12 H3]. apply andb_true_iff in H12 as [H1 H2].
    apply bool_decide_eq_true in H1, H3. apply negb_true_iff in H2. auto.
  - destruct H as (H1 & H2 & H3). split; [done|].
    rewrite !andb_true_iff, negb_true_iff, !bool_decide_eq_true. auto.
Qed.

(** isDateDisabled on an arbitrary instant of a day. *)
Lemma isDateDisabled_instant zone now st date :
  isDateDisabled zone now st date = true
  ↔ localDay zone date < localDay zone now
    ∨ midnight_of zone (localDay zone now + 60) < date
    ∨ getDay zone date = 0
    ∨ has_full_day_entry zone st date.
Proof.
  unfold isDateDisabled.
  rewrite startOfDay_midnight, addDays_midnight_of.
  unfold isBefore, isAfter.
  destruct (date <? midnight_of zone (localDay zone now)) eqn:Hb; simpl.
  { apply Z.ltb_lt, before_midnight in Hb. tauto. }
  apply Z.ltb_ge in Hb.
  assert (¬ localDay zone date < localDay zone now) as Hnb
    by (rewrite <- before_midnight; lia).
  destruct (midnight_of zone (localDay zone now + 60) <? date) eqn:Ha.
  { apply Z.ltb_lt in Ha. tauto. }
  apply Z.ltb_ge in Ha.
  case_bool_decide as Hs; [tauto|].
  rewrite full_day_scan. split; [tauto|]. intros [?|[?|[?|?]]]; [lia|lia|done|done].
Qed.

(** A formatted date is no name of Object.prototype. *)
Lemma holds_dash_app (a b : string) :
  holds_dash (a +:+ b) = holds_dash a || holds_dash b.
Proof.
  induction a as [|c a IH]; [done|].
  unfold holds_dash in *. simpl. by rewrite IH, orb_assoc.
Qed.

Lemma format_holds_dash zone t : holds_dash (format_yyyy_MM_dd zone t) = true.
Proof.
  unfold format_yyyy_MM_dd. destruct (civil_from_days _) as [[y m] d].
  rewrite holds_dash_app. apply orb_true_iff. by right.
Qed.

Lemma format_no_inherited_name zone t :
  format_yyyy_MM_dd zone t ∉ Object_prototype.
Proof.
  intros Hin. pose proof (format_holds_dash zone t) as Hdash.
  unfold Object_prototype in Hin. rewrite !elem_of_cons, elem_of_nil in Hin.
  repeat (destruct Hin as [Hin|Hin];
          [rewrite Hin in Hdash; vm_compute in Hdash; discriminate|]).
  done.
Qed.

(** The loop of loadBookedAppointments on a list it can take: under a date
    key it leaves the times of that date that count, after what was there. *)
Lemma forEach_record_appointment appointments bookedByDate :
  loadable appointments →
  ∃ bookedByDate',
    forEach record_appointment appointments bookedByDate = Some bookedByDate'
    ∧ ∀ k, bookedByDate' !! k
           = match live_times k appointments with
             | [] => bookedByDate !! k
             | times => Some (default [] (bookedByDate !! k) ++ times)
             end.
Proof.
  intros Hload. revert bookedByDate.
  induction Hload as [|a rest Ha Hrest IH]; intros bookedByDate; [by eexists|].
  assert (record_appointment bookedByDate a
          = Some (if bool_decide (status a ≠ "Didn't show up"%string)
                  then <[appointment_date a :=
                           default [] (bookedByDate !! appointment_date a)
                           ++ [appointment_time a]]> bookedByDate
                  else bookedByDate)) as Hrec.
  { unfold record_appointment, get. case_bool_decide as Hlive; [|done].
    destruct (bookedByDate !! appointment_date a) as [times|]; [done|].
    by rewrite bool_decide_eq_false_2 by auto. }
  simpl. rewrite Hrec.
  destruct (IH (if bool_decide (status a ≠ "Didn't show up"%string)
                then <[appointment_date a :=
                         default [] (bookedByDate !! appointment_date a)
                         ++ [appointment_time a]]> bookedByDate
                else bookedByDate)) as (final & Hfinal & Hlookup).
  exists final. split; [done|]. intros k. rewrite Hlookup.
  unfold live_times. rewrite filter_cons. case_bool_decide as Hlive.
  - destruct (decide (appointment_date a = k)) as [Hk|Hk].
    + rewrite decide_True by done. subst k. rewrite lookup_insert_eq, fmap_cons.
      simpl. destruct (appointment_time <$> filter _ rest) as [|t ts];
        [done | by rewrite <- app_assoc].
    + rewrite decide_False by tauto. by rewrite lookup_insert_ne.
  - rewrite decide_False by tauto. done.
Qed.

(** The loop on a list it cannot take, from an object without own
    properties under inherited names: it throws. *)
Lemma forEach_record_appointment_throws appointments bookedByDate :
  (∀ k, k ∈ Object_prototype → bookedByDate !! k = None) →
  ¬ loadable appointments →
  forEach record_appointment appointments bookedByDate = None.
Proof.
  revert bookedByDate.
  induction appointments as [|a rest IH]; intros bookedByDate Hown Hnot.
  { destruct Hnot. constructor. }
  simpl. unfold record_appointment, get.
  case_bool_decide as Hlive.
  - destruct (decide (appointment_date a ∈ Object_prototype)) as [Hin|Hout].
    + by rewrite (Hown _ Hin), bool_decide_eq_true_2.
    + assert (¬ loadable rest) as Hrest.
      { intros Hrest. apply Hnot. by constructor. }
      destruct (bookedByDate !! appointment_date a) as [times|];
        [|rewrite bool_decide_eq_false_2 by done];
        (apply IH; [|done]; intros k Hk; rewrite lookup_insert_ne; [by apply Hown|];
         intros <-; done).
  - apply IH; [done|]. intros Hrest. apply Hnot. by constructor.
Qed.

Lemma live_times_booked appointments k time :
  time ∈ live_times k appointments ↔ booked appointments k time.
Proof.
  unfold live_times, booked. rewrite list_elem_of_fmap. split.
  - intros (a & -> & Ha). apply list_elem_of_filter in Ha as [[? ?] ?]. eauto.
  - intros (a & Ha & ? & ? & <-). exists a. split; [done|].
    by apply list_elem_of_filter.
Qed.

Lemma bookedSlots_loaded appointments st k time :
  loadable appointments →
  (time ∈ default []
            (bookedSlots (loadBookedAppointments (Array appointments) st) !! k)
   ↔ booked appointments k time).
Proof.
  intros Hload. rewrite <- live_times_booked.
  destruct (forEach_record_appointment appointments ∅ Hload)
    as (final & Hfinal & Hlookup).
  unfold loadBookedAppointments. simpl. rewrite Hfinal. simpl.
  rewrite Hlookup, lookup_empty. by destruct (live_times k appointments).
Qed.

Lemma loadBookedAppointments_throws appointments st :
  ¬ loadable appointments →
  loadBookedAppointments (Array appointments) st = st.
Proof.
  intros Hnot. unfold loadBookedAppointments. simpl.
  rewrite forEach_record_appointment_throws; [done| |done].
  intros k _. apply lookup_empty.
Qed.

(** The loader touches the booked slots only. *)
Lemma loadBookedAppointments_keeps ls st :
  selected (loadBookedAppointments ls st) = selected st
  ∧ selectedTimeSlot (loadBookedAppointments ls st) = selectedTimeSlot st
  ∧ unavailableSchedules (loadBookedAppointments ls st) = unavailableSchedules st.
Proof.
  unfold loadBookedAppointments. destruct (parse_or_empty ls) as [l|]; [|done].
  by destruct (forEach record_appointment l ∅).
Qed.

Lemma has_partial_entry_loaded zone ls st sel time :
  has_partial_entry zone (loadBookedAppointments ls st) sel time
  ↔ has_partial_entry zone st sel time.
Proof.
  unfold has_partial_entry.
  by destruct (loadBookedAppointments_keeps ls st) as (_ & _ & ->).
Qed.

(** isTimeSlotAvailable in terms of the state alone. *)
Lemma isTimeSlotAvailable_selected zone st sel time :
  selected st = Some sel →
  (isTimeSlotAvailable zone st time = true
   ↔ (time ∉ default [] (bookedSlots st !! format_yyyy_MM_dd zone sel))
     ∧ ¬ has_partial_entry zone st sel time).
Proof.
  intros Hsel. unfold isTimeSlotAvailable. rewrite Hsel.
  case_bool_decide as Hb; [split; [done|tauto]|].
  rewrite negb_true_iff, <- not_true_iff_false, partial_scan. tauto.
Qed.

Lemma isTimeSlotAvailable_unselected zone st time :
  selected st = None → isTimeSlotAvailable zone st time = false.
Proof. intros Hsel. unfold isTimeSlotAvailable. by rewrite Hsel. Qed.

Example monday_2024_01_01 : getDay 0 (january_2024 0 1) = 1.
Proof. reflexivity. Qed.

(** With today on 2024-01-01, in any zone, today is a Monday and 2024-01-08
    can be picked as long as no full-day entry names it. *)
Lemma monday_week_ahead zone now st :
  localDay zone now = days_from_civil 2024 1 1 →
  ¬ has_full_day_entry zone st (january_2024 zone 8) →
  getDay zone now = 1
  ∧ isDateDisabled zone now st (january_2024 zone 8) = false.
Proof.
  intros Hnow Hnone. split.
  - unfold getDay. rewrite Hnow. reflexivity.
  - apply not_true_iff_false. rewrite isDateDisabled_instant.
    unfold january_2024, getDay. rewrite midnight_of_lt, localDay_midnight_of, Hnow.
    intros [H|[H|[H|H]]]; [by vm_compute in H ..|done].
Qed.

(** The 60th day after today can be picked, the 61st cannot; an instant
    later than midnight on the 60th day is already after maxDate. *)
Example sixty_days_ahead :
  isDateDisabled 0 (january_2024 0 1) (initial None "") (january_2024 0 61) = false
  ∧ isDateDisabled 0 (january_2024 0 1) (initial None "") (january_2024 0 62) = true
  ∧ isDateDisabled 0 (january_2024 0 1) (initial None "") (january_2024 0 61 + 1)
    = true.
Proof. by vm_compute. Qed.

Example booking_takes_one_slot :
  isTimeSlotAvailable 0 (picked (Array [confirmed_at_ten]) Absent (january_2024 0 8))
    "10:00" = false
  ∧ getAvailableTimesCount 0
      (picked (Array [confirmed_at_ten]) Absent (january_2024 0 8)) = 12%nat.
Proof. split; vm_compute; reflexivity. Qed.

Example no_show_takes_no_slot :
  isTimeSlotAvailable 0 (picked (Array [no_show_at_ten]) Absent (january_2024 0 8))
    "10:00" = true
  ∧ getAvailableTimesCount 0
      (picked (Array [no_show_at_ten]) Absent (january_2024 0 8)) = 13%nat.
Proof. split; vm_compute; reflexivity. Qed.

(** C3: for every calendar date (the start of a local day, as the calendar
    widget hands it over) isDateDisabled is true exactly when the day is
    before today, more than 60 days after today, a Sunday, or has a full-day
    unavailability entry, and false otherwise; on a Sunday, at any instant of
    it, the answer is true whatever the unavailability data. *)
Theorem isDateDisabled_calendar_date zone now st :
  (∀ d,
     isDateDisabled zone now st (midnight_of zone d) = true
     ↔ d < localDay zone now
       ∨ localDay zone now + 60 < d
       ∨ getDay zone (midnight_of zone d) = 0
       ∨ has_full_day_entry zone st (midnight_of zone d))
  ∧ (∀ date, getDay zone date = 0 → isDateDisabled zone now st date = true).
Proof.
  split.
  - intros d. rewrite isDateDisabled_instant, localDay_midnight_of, midnight_of_lt.
    tauto.
  - intros date Hsun. apply isDateDisabled_instant. tauto.
Qed.

Lemma isDateDisabled_calendar_date_witness :
  getDay 0 (january_2024 0 7) = 0
  ∧ isDateDisabled 0 (january_2024 0 1 + 36000000)
      (picked Absent Absent (january_2024 0 8)) (january_2024 0 7) = true.
Proof.
  split; [reflexivity|].
  apply (proj2 (isDateDisabled_calendar_date 0 (january_2024 0 1 + 36000000)
                  (picked Absent Absent (january_2024 0 8)))).
  reflexivity.
Defined.

(** X18: when the loop of loadBookedAppointments runs to its end (no stored
    appointment that counts is dated with a name of Object.prototype),
    isTimeSlotAvailable is false when no date is selected; with a date
    selected it is false when an appointment of that date whose status is not
    "Didn't show up" holds the time, false when an unavailability entry of
    that date that is not full-day names exactly that time, and true
    otherwise; in particular it is true when the only appointments of that
    date and time have status "Didn't show up" and no such entry exists. *)
Theorem isTimeSlotAvailable_cases zone appointments st time :
  loadable appointments →
  (selected st = None →
     isTimeSlotAvailable zone (loadBookedAppointments (Array appointments) st) time
     = false)
  ∧ (∀ sel, selected st = Some sel →
       (booked appointments (format_yyyy_MM_dd zone sel) time →
          isTimeSlotAvailable zone (loadBookedAppointments (Array appointments) st)
            time = false)
       ∧ (has_partial_entry zone st sel time →
          isTimeSlotAvailable zone (loadBookedAppointments (Array appointments) st)
            time = false)
       ∧ (¬ booked appointments (format_yyyy_MM_dd zone sel) time →
          ¬ has_partial_entry zone st sel time →
          isTimeSlotAvailable zone (loadBookedAppointments (Array appointments) st)
            time = true)
       ∧ ((∀ a, a ∈ appointments →
                appointment_date a = format_yyyy_MM_dd zone sel →
                appointment_time a = time →
                status a = "Didn't show up"%string) →
          ¬ has_partial_entry zone st sel time →
          isTimeSlotAvailable zone (loadBookedAppointments (Array appointments) st)
            time = true)).
Proof.
  intros Hload.
  destruct (loadBookedAppointments_keeps (Array appointments) st) as (Hkeep & _ & _).
  split.
  - intros Hsel. apply isTimeSlotAvailable_unselected. by rewrite Hkeep.
  - intros sel Hsel. rewrite <- Hkeep in Hsel.
    pose proof (isTimeSlotAvailable_selected zone
      (loadBookedAppointments (Array appointments) st) sel time Hsel) as Hiff.
    rewrite (bookedSlots_loaded appointments st _ time Hload),
      has_partial_entry_loaded in Hiff.
    split; [|split; [|split]].
    + intros Hb. apply not_true_iff_false. tauto.
    + intros Hp. apply not_true_iff_false. tauto.
    + intros Hb Hp. tauto.
    + intros Hdsu Hp. apply Hiff. split; [|done].
      intros (a & Ha & Hstatus & Hdate & Htime). eauto.
Qed.

Lemma isTimeSlotAvailable_cases_witness :
  isTimeSlotAvailable 0
    (loadBookedAppointments (Array [confirmed_at_ten])
       (picked Absent Absent (january_2024 0 8))) "10:00" = false.
Proof.
  assert (loadable [confirmed_at_ten]) as Hload.
  { repeat constructor. intros _. apply (bool_decide_eq_false_1 _).
    vm_compute. reflexivity. }
  apply (proj1 (proj2 (isTimeSlotAvailable_cases 0 [confirmed_at_ten]
                         (picked Absent Absent (january_2024 0 8)) "10:00" Hload)
                  (january_2024 0 8) eq_refl)).
  exists confirmed_at_ten. repeat split; [left | discriminate].
Defined.

(** C4, on the code: loadBookedAppointments collects the booked times in a
    plain object.  One stored appointment that counts and is dated
    "constructor" makes the loop throw, the catch leaves the booked slots
    empty, and the slot 10:00 of 2024-01-08, held by a "Confirmed"
    appointment, is available: all 13 slots are. *)
Theorem stray_date_frees_booked_slots :
  booked [confirmed_at_ten; stray_record]
    (format_yyyy_MM_dd 0 (january_2024 0 8)) "10:00"
  ∧ isTimeSlotAvailable 0
      (picked (Array [confirmed_at_ten; stray_record]) Absent (january_2024 0 8))
      "10:00" = true
  ∧ getAvailableTimesCount 0
      (picked (Array [confirmed_at_ten; stray_record]) Absent (january_2024 0 8))
    = 13%nat
  ∧ isTimeSlotAvailable 0
      (picked (Array [confirmed_at_ten]) Absent (january_2024 0 8)) "10:00" = false.
Proof.
  split; [|by vm_compute].
  exists confirmed_at_ten. repeat split; [left | discriminate].
Qed.

(** C5: getAvailableTimesCount is the number of the 13 fixed time slots for
    which isTimeSlotAvailable is true on the selected date; with 2024-01-08
    selected, no bookings and no unavailability entries, it is 13. *)
Theorem getAvailableTimesCount_counts zone :
  (∀ st,
     getAvailableTimesCount zone st
     = length (filter (fun time => isTimeSlotAvailable zone st time = true) timeSlots))
  ∧ length timeSlots = 13%nat
  ∧ getAvailableTimesCount zone (picked Absent Absent (january_2024 zone 8)) = 13%nat
  ∧ getAvailableTimesCount zone (picked (Array []) (Array []) (january_2024 zone 8))
    = 13%nat.
Proof.
  split; [|split; [|split]].
  - intros st. unfold getAvailableTimesCount.
    destruct (selected st) as [sel|] eqn:Hsel; [done|].
    unfold isTimeSlotAvailable. rewrite Hsel. reflexivity.
  - reflexivity.
  - reflexivity.
  - reflexivity.
Qed.

(** C6, as stated, fails: Sunday 2024-01-07 has a partial-day entry only and
    is disabled all the same. *)
Lemma partial_entry_on_a_sunday :
  has_partial_entry 0 (picked Absent (Array [sunday_morning]) (january_2024 0 7))
    (january_2024 0 7) "10:00"
  ∧ ¬ has_full_day_entry 0 (picked Absent (Array [sunday_morning]) (january_2024 0 7))
        (january_2024 0 7)
  ∧ isDateDisabled 0 (january_2024 0 1)
      (picked Absent (Array [sunday_morning]) (january_2024 0 7))
      (january_2024 0 7) = true.
Proof.
  split; [|split].
  - exists sunday_morning. repeat split. left.
  - intros (s & Hs & _ & Hfull). simpl in Hs.
    apply list_elem_of_singleton in Hs. subst s. discriminate.
  - reflexivity.
Qed.

(** C6, amended: a date with a full-day entry is disabled; a date with no
    full-day entry (partial-day entries only, or none) that is not before
    today, not beyond the start of the 60th day after today and not a Sunday
    is not disabled; and with a date selected, the time a partial-day entry of
    that date names is not available. *)
Theorem unavailability_entries zone now st date :
  (has_full_day_entry zone st date → isDateDisabled zone now st date = true)
  ∧ (¬ has_full_day_entry zone st date →
     localDay zone now ≤ localDay zone date →
     date ≤ midnight_of zone (localDay zone now + 60) →
     getDay zone date ≠ 0 →
     isDateDisabled zone now st date = false)
  ∧ (∀ time,
       selected st = Some date →
       has_partial_entry zone st date time →
       isTimeSlotAvailable zone st time = false).
Proof.
  split; [|split].
  - intros Hfull. apply isDateDisabled_instant. tauto.
  - intros Hnone Hlo Hhi Hday. apply not_true_iff_false.
    rewrite isDateDisabled_instant. intros [?|[?|[?|?]]]; [lia|lia|done|done].
  - intros time Hsel Hpart. apply not_true_iff_false.
    rewrite (isTimeSlotAvailable_selected zone st date time Hsel). tauto.
Qed.

Lemma unavailability_entries_witness :
  isDateDisabled 0 (january_2024 0 1)
    (picked Absent (Array [monday_morning]) (january_2024 0 8))
    (january_2024 0 8) = false
  ∧ isTimeSlotAvailable 0
      (picked Absent (Array [monday_morning]) (january_2024 0 8)) "10:00" = false.
Proof.
  pose proof (unavailability_entries 0 (january_2024 0 1)
    (picked Absent (Array [monday_morning]) (january_2024 0 8))
    (january_2024 0 8)) as (_ & Hdate & Htime).
  split.
  - apply Hdate.
    + intros (s & Hs & _ & Hfull). simpl in Hs.
      apply list_elem_of_singleton in Hs. subst s. discriminate.
    + vm_compute. discriminate.
    + vm_compute. discriminate.
    + vm_compute. discriminate.
  - apply Htime; [reflexivity|].
    exists monday_morning. repeat split. left.
Defined.

End Availability.

(** ** The contact form *)
Module FormFacts.
Import PatientForm Scenario.

Lemma string_min_path field n msg value i :
  i ∈ string_min field n msg value →
  path i = field ∧ code i = too_small ∧ (String.length value < n)%nat.
Proof.
  unfold string_min. destruct (Nat.ltb_spec (String.length value) n) as [Hlt|Hge].
  - intros ->%list_elem_of_singleton. auto.
  - intros []%elem_of_nil.
Qed.

Lemma email_or_empty_path is_email value i :
  i ∈ email_or_empty is_email value → path i = "email"%string.
Proof.
  unfold email_or_empty. destruct (_ || _).
  - intros []%elem_of_nil.
  - by intros ->%list_elem_of_singleton.
Qed.

Lemma group_size_path value i : i ∈ group_size value → path i = "groupSize"%string.
Proof.
  unfold group_size, number_min, number_max. destruct value as [n|].
  - destruct (n <? 1), (50 <? n); simpl; rewrite ?elem_of_cons, ?elem_of_nil;
      intuition (subst; done).
  - by intros ->%list_elem_of_singleton.
Qed.

(** The phone field is in error exactly when the string is shorter than 10
    characters, and the error is then a minimum-length one. *)
Lemma phone_issue_iff is_email data :
  (∃ i, i ∈ bookingSchema is_email data ∧ path i = "phone"%string)
  ↔ (String.length (phone data) < 10)%nat.
Proof.
  unfold bookingSchema. split.
  - intros (i & Hi & Hp). rewrite !elem_of_app in Hi.
    destruct Hi as [Hi|[Hi|[Hi|[Hi|Hi]]]].
    + apply string_min_path in Hi as (Hi & _). congruence.
    + apply email_or_empty_path in Hi. congruence.
    + by apply string_min_path in Hi as (_ & _ & ?).
    + apply string_min_path in Hi as (Hi & _). congruence.
    + apply group_size_path in Hi. congruence.
  - intros Hlen.
    exists {| path := "phone"; code := too_small;
              message := "Phone number must be at least 10 digits" |}.
    split; [|done]. rewrite !elem_of_app. right; right; left.
    unfold string_min. apply Nat.ltb_lt in Hlen. rewrite Hlen. left.
Qed.

Lemma phone_issue_blocks is_email data :
  (String.length (phone data) < 10)%nat → handleSubmit is_email data = None.
Proof.
  intros Hlen. apply phone_issue_iff with (is_email := is_email) in Hlen
    as (i & Hi & _).
  unfold handleSubmit. destruct (bookingSchema is_email data); [|done].
  by apply elem_of_nil in Hi.
Qed.

(** The scenario of the specification: five digits are refused with a
    minimum-length error on the phone field, ten digits pass. *)
Example phone_12345_blocked is_email :
  bookingSchema is_email (ann "12345")
  = [ {| path := "phone"; code := too_small;
         message := "Phone number must be at least 10 digits" |} ]
  ∧ handleSubmit is_email (ann "12345") = None.
Proof. split; reflexivity. Qed.

Example phone_1234567890_passes is_email :
  bookingSchema is_email (ann "1234567890") = []
  ∧ handleSubmit is_email (ann "1234567890") = Some (to_object (ann "1234567890")).
Proof. split; reflexivity. Qed.

(** C2, on the code: the phone rule is z.string().min(10), a bound on the
    number of characters, so the phone "(123) 456-789", which has 9 digits in
    13 characters, raises no issue and the form is submitted, although the
    rule's own message asks for at least 10 digits. *)
Theorem phone_rule_counts_characters is_email :
  digits "(123) 456-789" = 9%nat
  ∧ String.length "(123) 456-789" = 13%nat
  ∧ bookingSchema is_email (ann "(123) 456-789") = []
  ∧ handleSubmit is_email (ann "(123) 456-789")
    = Some (to_object (ann "(123) 456-789")).
Proof. repeat split. Qed.

End FormFacts.

(** ** The wizard controller *)
Module WizardFacts.
Import Wizard Scenario.

(** Spreading [data] over [prev], property by property. *)
Lemma spread_lookup (data prev : object) (k : string) :
  (data ∪ prev) !! k = match data !! k with
                       | Some v => Some v
                       | None => prev !! k
                       end.
Proof. rewrite lookup_union. by destruct (data !! k), (prev !! k). Qed.

(** C7: the completion callback moves from step N to N+1 and merges the
    step's data into the accumulated data key by key, a new value replacing
    the earlier one of the same key; back moves to N-1 and keeps the
    accumulated data as it is; close, in the dialog, puts the step back to 1
    and empties the accumulated data, from any state. *)
Theorem controller_transitions (st : state) (data : object) :
  currentStep (handleStepComplete data st) = currentStep st + 1
  ∧ (∀ k : string,
       bookingData (handleStepComplete data st) !! k
       = match data !! k with
         | Some v => Some v
         | None => bookingData st !! k
         end)
  ∧ currentStep (handleBack st) = currentStep st - 1
  ∧ bookingData (handleBack st) = bookingData st
  ∧ currentStep (handleClose Modal st) = 1
  ∧ bookingData (handleClose Modal st) = ∅.
Proof.
  split; [reflexivity|]. split; [|by repeat split].
  intros k. apply spread_lookup.
Qed.

(** The wiring of renderStep, step by step. *)
Lemma dispatch_inv h e st st' :
  dispatch h e st = Some st' →
  match e with
  | DateTimeSelect _ _ => currentStep st = 1 ∧ currentStep st' = 2
  | Submit _ => currentStep st = 2 ∧ currentStep st' = 3
  | Back => (currentStep st = 2 ∨ currentStep st = 3)
            ∧ currentStep st' = currentStep st - 1
  | Close => st' = handleClose h st
  end.
Proof.
  unfold dispatch, renderStep.
  repeat case_bool_decide; destruct e; simpl; intros [= <-]; simpl; lia || done.
Qed.

(** The handler alone has no lower bound: called in the initial state it
    would leave step 0, where nothing is rendered; but no view of step 1 is
    given it. *)
Example handleBack_unguarded h :
  currentStep (handleBack initial) = 0
  ∧ renderStep (handleBack initial) = NoView
  ∧ dispatch h Back initial = None.
Proof. by repeat split. Qed.

Example three_steps_run h : run h three_steps initial = Some at_confirmation.
Proof. reflexivity. Qed.

Lemma reachable_run h es st st' :
  reachable h st → run h es st = Some st' → reachable h st'.
Proof.
  revert st. induction es as [|e es IH]; intros st Hst; simpl.
  - by intros [= <-].
  - destruct (dispatch h e st) as [st1|] eqn:He; [|done].
    apply IH. by eapply reachable_dispatch.
Qed.

(** C10: in every state a host of the wizard can reach, currentStep is 1, 2
    or 3: back is given to the views of steps 2 and 3 only, the completion
    callbacks to those of steps 1 and 2 only, and close puts the step back to
    1 (dialog) or leaves it (page). *)
Theorem currentStep_in_range (h : host) (st : state) :
  reachable h st →
  currentStep st = 1 ∨ currentStep st = 2 ∨ currentStep st = 3.
Proof.
  induction 1 as [|st e st' Hst IH Hd]; [by left|].
  apply dispatch_inv in Hd. destruct e.
  - lia.
  - lia.
  - lia.
  - subst st'. destruct h; simpl; [by left | done].
Qed.

Lemma currentStep_in_range_witness :
  currentStep at_confirmation = 1
  ∨ currentStep at_confirmation = 2
  ∨ currentStep at_confirmation = 3.
Proof.
  apply (currentStep_in_range Modal).
  apply (reachable_run Modal three_steps initial);
    [apply reachable_initial | reflexivity].
Defined.

End WizardFacts.

(** ** The confirm action *)
Module ConfirmationFacts.
Import DateFns BookingConfirmation Scenario.

(** Writing a parsed record back gives the same record. *)
Lemma stringify_parse_object (j : json_object) :
  stringify_object (parse_object j) = j.
Proof.
  apply map_eq. intros k. unfold stringify_object, parse_object.
  rewrite lookup_omap, lookup_fmap. by destruct (j !! k) as [[]|].
Qed.

Lemma stringify_parse_records (items : list json_object) :
  stringify_object <$> (parse_object <$> items) = items.
Proof.
  induction items as [|j items IH]; [done|].
  by rewrite !fmap_cons, stringify_parse_object, IH.
Qed.

(** Unfolds the statements of the action down to functions on the world. *)
Ltac unfold_action :=
  unfold handleConfirmBooking, try_catch_finally, Date_now, new_Date, read_clock,
    getItem, JSON_parse, setItem, emit, throw, mbind, M_bind, mret, M_ret;
  simpl.

(** The action when storage can be read, holds an array (or nothing) and
    takes the write. *)
Lemma handleConfirmBooking_success bookingData w items :
  readable w = true →
  writable w = true →
  parse_or_empty (paintball_bookings w) = Some items →
  handleConfirmBooking bookingData w
  = (Return (),
     {| clock := clock w; reads := 4 + reads w;
        paintball_bookings :=
          Array (items ++ [stringify_object
            (booking_of (pretty (clock w (reads w))) bookingData
               (clock w (1 + reads w)) (clock w (2 + reads w))
               (clock w (3 + reads w)))]);
        readable := readable w; writable := writable w;
        trace := trace w ++ [SetIsSubmitting true;
                             Toast "Paintball Session Booked Successfully!" false;
                             SetTimeout_onClose 2000;
                             SetIsSubmitting false] |}).
Proof.
  intros Hr Hw Hitems. unfold_action.
  rewrite Hr. simpl. rewrite Hitems. simpl. rewrite Hw. simpl.
  rewrite fmap_app, stringify_parse_records, <- !app_assoc. reflexivity.
Qed.

(** The action when the read throws, the stored string does not parse, or
    the write throws. *)
Lemma handleConfirmBooking_failure bookingData w :
  readable w = false
  ∨ parse_or_empty (paintball_bookings w) = None
  ∨ writable w = false →
  handleConfirmBooking bookingData w
  = (Return (),
     {| clock := clock w; reads := 4 + reads w;
        paintball_bookings := paintball_bookings w;
        readable := readable w; writable := writable w;
        trace := trace w ++ [SetIsSubmitting true;
                             ConsoleError;
                             Toast "Booking Failed" true;
                             SetIsSubmitting false] |}).
Proof.
  intros Hfail. unfold_action.
  destruct (readable w) eqn:Hr; simpl.
  - destruct (parse_or_empty (paintball_bookings w)) as [items|] eqn:Hp; simpl.
    + destruct (writable w) eqn:Hw; simpl.
      * destruct Hfail as [?|[?|?]]; done.
      * by rewrite <- !app_assoc.
    + by rewrite <- !app_assoc.
  - by rewrite <- !app_assoc.
Qed.

Lemma booking_of_status bookingId bookingData created updated booked :
  stringify_object (booking_of bookingId bookingData created updated booked)
    !! "status" = Some (JsonStr "Pending").
Proof.
  unfold stringify_object, booking_of. rewrite lookup_omap.
  by rewrite !lookup_insert_ne, lookup_insert_eq by done.
Qed.

Lemma booking_of_timestamps bookingId bookingData created updated booked :
  let r := stringify_object
             (booking_of bookingId bookingData created updated booked) in
  r !! "created_at" = Some (JsonStr (toISOString created))
  ∧ r !! "updated_at" = Some (JsonStr (toISOString updated))
  ∧ r !! "booked_at" = Some (JsonStr (toISOString booked)).
Proof.
  unfold stringify_object, booking_of. simpl. rewrite !lookup_omap.
  repeat split.
  - by rewrite !lookup_insert_ne, lookup_insert_eq by done.
  - by rewrite lookup_insert_ne, lookup_insert_eq by done.
  - by rewrite lookup_insert_eq.
Qed.

(** The identifier is the generated one unless the data carries a property
    [id] of its own, which the spread would put in its place. *)
Lemma booking_of_id bookingId bookingData created updated booked :
  bookingData !! "id" = None →
  stringify_object (booking_of bookingId bookingData created updated booked)
    !! "id" = Some (JsonStr bookingId).
Proof.
  intros Hid. unfold stringify_object, booking_of. rewrite lookup_omap.
  rewrite !lookup_insert_ne by done.
  by rewrite lookup_union, Hid, lookup_singleton_eq.
Qed.

Example confirmed_record :
  (fun r => (r !! "id", r !! "customerName", r !! "bookingDate", r !! "bookingTime"))
    <$> records (handleConfirmBooking valid_booking
                   (browser standing Absent true true)).2
  = [(Some (JsonStr "1704067200000"), Some (JsonStr "Ann Cruz"),
      Some (JsonStr "2024-01-08"), Some (JsonStr "10:00"))].
Proof. vm_compute. reflexivity. Qed.

(** C1, as stated, fails: when the clock advances between the three
    new Date() calls, the record that is appended carries three different
    timestamps. *)
Lemma timestamps_differ_on_a_ticking_clock :
  stamps <$> records (handleConfirmBooking valid_booking
                        (browser ticking Absent true true)).2
  = [(Some (JsonStr "Pending"),
      Some (JsonStr "2024-01-01T00:00:00.001Z"),
      Some (JsonStr "2024-01-01T00:00:00.002Z"),
      Some (JsonStr "2024-01-01T00:00:00.003Z"))]
  ∧ JsonStr "2024-01-01T00:00:00.001Z" ≠ JsonStr "2024-01-01T00:00:00.002Z"
  ∧ JsonStr "2024-01-01T00:00:00.002Z" ≠ JsonStr "2024-01-01T00:00:00.003Z".
Proof. split; [vm_compute; reflexivity | split; discriminate]. Qed.

(** C1, amended: when localStorage can be read, holds a JSON array (or
    nothing) under paintball_bookings and takes the write, the confirm action
    appends exactly one record and leaves the stored ones as they are; the
    record has status "Pending"; its three timestamps are the three readings
    of the clock taken one after the other while the record is built, so they
    are equal whenever the clock does not advance between those readings;
    success is signalled and onClose is scheduled 2000 ms later. *)
Theorem confirm_appends_one_record bookingData w items :
  readable w = true →
  writable w = true →
  parse_or_empty (paintball_bookings w) = Some items →
  ∃ r,
    paintball_bookings (handleConfirmBooking bookingData w).2 = Array (items ++ [r])
    ∧ r !! "status" = Some (JsonStr "Pending")
    ∧ r !! "created_at" = Some (JsonStr (toISOString (clock w (1 + reads w))))
    ∧ r !! "updated_at" = Some (JsonStr (toISOString (clock w (2 + reads w))))
    ∧ r !! "booked_at" = Some (JsonStr (toISOString (clock w (3 + reads w))))
    ∧ (clock w (1 + reads w) = clock w (2 + reads w) →
       clock w (2 + reads w) = clock w (3 + reads w) →
       r !! "created_at" = r !! "updated_at"
       ∧ r !! "updated_at" = r !! "booked_at")
    ∧ App.effects_since w (handleConfirmBooking bookingData w).2
      = [SetIsSubmitting true;
         Toast "Paintball Session Booked Successfully!" false;
         SetTimeout_onClose 2000;
         SetIsSubmitting false].
Proof.
  intros Hr Hw Hitems.
  rewrite (handleConfirmBooking_success bookingData w items Hr Hw Hitems).
  eexists. split; [reflexivity|].
  pose proof (booking_of_timestamps (pretty (clock w (reads w))) bookingData
    (clock w (1 + reads w)) (clock w (2 + reads w)) (clock w (3 + reads w)))
    as (Hc & Hu & Hb).
  split; [apply booking_of_status|].
  split; [exact Hc|]. split; [exact Hu|]. split; [exact Hb|]. split.
  - intros H12 H23. rewrite Hc, Hu, Hb, H12, H23. done.
  - unfold App.effects_since. simpl. by rewrite drop_app_length.
Qed.

Lemma confirm_appends_one_record_witness :
  ∃ r,
    paintball_bookings
      (handleConfirmBooking valid_booking (browser standing (Array []) true true)).2
    = Array ([] ++ [r])
    ∧ r !! "status" = Some (JsonStr "Pending")
    ∧ r !! "created_at" = r !! "updated_at"
    ∧ r !! "updated_at" = r !! "booked_at".
Proof.
  destruct (confirm_appends_one_record valid_booking
              (browser standing (Array []) true true) [] eq_refl eq_refl eq_refl)
    as (r & Hstore & Hstatus & _ & _ & _ & Hequal & _).
  exists r. split; [exact Hstore|]. split; [exact Hstatus|].
  apply Hequal; reflexivity.
Defined.

(** C8: when the read of localStorage throws, or the stored string does not
    parse, or the write throws, the action logs the error and shows the
    "Booking Failed" notification, schedules no onClose (so the host stays on
    the step it is on), and leaves the stored collection as it was. *)
Theorem confirm_failure_keeps_everything bookingData w h st :
  readable w = false
  ∨ parse_or_empty (paintball_bookings w) = None
  ∨ writable w = false →
  App.effects_since w (handleConfirmBooking bookingData w).2
  = [SetIsSubmitting true; ConsoleError; Toast "Booking Failed" true;
     SetIsSubmitting false]
  ∧ App.fire_timers h
      (App.effects_since w (handleConfirmBooking bookingData w).2) st = st
  ∧ paintball_bookings (handleConfirmBooking bookingData w).2
    = paintball_bookings w.
Proof.
  intros Hfail. rewrite (handleConfirmBooking_failure bookingData w Hfail).
  unfold App.effects_since. simpl. rewrite drop_app_length. done.
Qed.

Lemma confirm_failure_keeps_everything_witness :
  Wizard.currentStep
    (App.fire_timers Wizard.Modal
       (App.effects_since (browser ticking (Array []) true false)
          (handleConfirmBooking valid_booking
             (browser ticking (Array []) true false)).2)
       at_confirmation) = 3
  ∧ paintball_bookings
      (handleConfirmBooking valid_booking (browser ticking (Array []) true false)).2
    = Array [].
Proof.
  destruct (confirm_failure_keeps_everything valid_booking
              (browser ticking (Array []) true false) Wizard.Modal
              at_confirmation) as (_ & Hstay & Hstore).
  - right; right; reflexivity.
  - split; [by rewrite Hstay | exact Hstore].
Defined.

(** On success the timer does close the dialog: the step is back to 1. *)
Example confirm_success_closes :
  Wizard.currentStep
    (App.fire_timers Wizard.Modal
       (App.effects_since (browser ticking Absent true true)
          (handleConfirmBooking valid_booking (browser ticking Absent true true)).2)
       at_confirmation) = 1.
Proof. vm_compute. reflexivity. Qed.

(** C9, on the code: the identifier is the clock reading in milliseconds and
    is compared with nothing.  Two confirm actions that read the same
    millisecond (here the wall clock was set back in between) store two
    records with the same identifier. *)
Theorem same_reading_same_id :
  (fun r : json_object => r !! "id")
    <$> records
          (handleConfirmBooking valid_booking
             (handleConfirmBooking valid_booking
                (browser set_back Absent true true)).2).2
  = [Some (JsonStr "1704067200000"); Some (JsonStr "1704067200000")].
Proof. vm_compute. reflexivity. Qed.

(** X15: what does hold of identifiers: when the data carry no "id" and
    every stored identifier was made from an earlier reading of the clock,
    the identifier of the appended record differs from all the stored
    ones. *)
Lemma fresh_id_on_a_later_reading bookingData w items :
  bookingData !! "id" = None →
  readable w = true →
  writable w = true →
  parse_or_empty (paintball_bookings w) = Some items →
  (∀ r, r ∈ items →
        ∃ t, r !! "id" = Some (JsonStr (pretty t)) ∧ t < clock w (reads w)) →
  ∃ r, records (handleConfirmBooking bookingData w).2 = items ++ [r]
       ∧ ∀ r', r' ∈ items → r' !! "id" ≠ r !! "id".
Proof.
  intros Hid Hr Hw Hitems Hold.
  rewrite (handleConfirmBooking_success bookingData w items Hr Hw Hitems).
  eexists. split; [reflexivity|].
  intros r' Hr'. rewrite booking_of_id by done.
  destruct (Hold r' Hr') as (t & -> & Hlt).
  intros [= Heq]. apply (inj pretty) in Heq. lia.
Qed.

End ConfirmationFacts.

(** ** More on the calendar *)
Module CalendarFacts.
Import DateFns DateFacts AppointmentCalendar AvailabilitySpec CalendarControls.

Lemma loadable_two_appointments : loadable [no_show_at_ten; confirmed_at_ten].
Proof.
  repeat constructor; intros _; apply (bool_decide_eq_false_1 _);
    vm_compute; reflexivity.
Qed.

(** X1: loadBookedAppointments groups the stored appointments by date: when
    no appointment that counts is dated with a name of Object.prototype,
    under a date key sit the times of that date's appointments whose status
    is not "Didn't show up", in stored order and with repetitions, and a date
    with no such appointment has no key; when one is so dated the loop throws
    and the state, booked slots included, stays as it was. *)
Theorem loadBookedAppointments_groups appointments st :
  (loadable appointments →
   ∀ k, bookedSlots (loadBookedAppointments (Array appointments) st) !! k
        = match live_times k appointments with
          | [] => None
          | times => Some times
          end)
  ∧ (¬ loadable appointments →
     loadBookedAppointments (Array appointments) st = st).
Proof.
  split.
  - intros Hload k.
    destruct (Availability.forEach_record_appointment appointments ∅ Hload)
      as (final & Hfinal & Hlookup).
    unfold loadBookedAppointments. simpl. rewrite Hfinal. simpl.
    rewrite Hlookup, lookup_empty. by destruct (live_times k appointments).
  - apply Availability.loadBookedAppointments_throws.
Qed.

Lemma loadBookedAppointments_groups_witness :
  bookedSlots (loadBookedAppointments (Array [no_show_at_ten; confirmed_at_ten])
                 (initial None "")) !! "2024-01-08"
  = Some ["10:00"%string].
Proof.
  apply (proj1 (loadBookedAppointments_groups [no_show_at_ten; confirmed_at_ten]
                  (initial None "")) loadable_two_appointments "2024-01-08"%string).
Defined.

Lemma all_slots_free zone st :
  is_Some (selected st) →
  bookedSlots st = ∅ →
  unavailableSchedules st = [] →
  getAvailableTimesCount zone st = 13%nat.
Proof.
  intros [sel Hsel] Hb Hu. unfold getAvailableTimesCount, isTimeSlotAvailable.
  rewrite Hsel, Hb, Hu. reflexivity.
Qed.

(** X2: strings that do not parse, under both keys, count as no data: with
    any date picked all 13 slots are available, and a calendar date is
    disabled by the booking window and the Sunday rule alone. *)
Theorem unparsable_storage_blocks_nothing zone now date d :
  getAvailableTimesCount zone (picked Malformed Malformed date) = 13%nat
  ∧ (isDateDisabled zone now (picked Malformed Malformed date) (midnight_of zone d)
     = true
     ↔ d < localDay zone now
       ∨ localDay zone now + 60 < d
       ∨ getDay zone (midnight_of zone d) = 0).
Proof.
  split; [by apply all_slots_free|].
  rewrite Availability.isDateDisabled_instant, localDay_midnight_of, midnight_of_lt.
  split; [|tauto].
  intros [?|[?|[?|(s & Hs & _)]]]; [tauto..|].
  simpl in Hs. by apply elem_of_nil in Hs.
Qed.

(** X4: picking a date empties the time choice, so Continue is disabled and
    hands nothing on until a time is picked; after that it hands on the
    picked date, formatted, and the picked time. Continue is disabled exactly
    when handleContinue would hand nothing on. *)
Theorem continue_needs_date_and_time zone st :
  (∀ date,
     continue_disabled (handleDateSelect date st) = true
     ∧ handleContinue zone (handleDateSelect date st) = None)
  ∧ (∀ date time,
       time ≠ ""%string →
       continue_disabled (handleTimeSelect time (handleDateSelect (Some date) st))
       = false
       ∧ handleContinue zone (handleTimeSelect time (handleDateSelect (Some date) st))
         = Some (format_yyyy_MM_dd zone date, time))
  ∧ (continue_disabled st = true ↔ handleContinue zone st = None).
Proof.
  split; [|split].
  - intros [date|]; split; reflexivity.
  - intros date time Htime. unfold continue_disabled, handleContinue. simpl.
    rewrite bool_decide_eq_false_2, bool_decide_eq_true_2 by done. done.
  - unfold continue_disabled, handleContinue.
    destruct (selected st) as [sel|]; [|done].
    destruct (decide (selectedTimeSlot st = ""%string)) as [He|He].
    + rewrite bool_decide_eq_true_2, bool_decide_eq_false_2 by (rewrite ?He; auto).
      done.
    + rewrite bool_decide_eq_false_2, bool_decide_eq_true_2 by done. done.
Qed.

Lemma continue_needs_date_and_time_witness :
  handleContinue 0
    (handleTimeSelect "10:00" (handleDateSelect (Some (january_2024 0 8))
                                 (initial None "")))
  = Some ("2024-01-08"%string, "10:00"%string).
Proof.
  apply (proj1 (proj2 (continue_needs_date_and_time 0 (initial None "")))
           (january_2024 0 8) "10:00"). discriminate.
Defined.

Lemma timeSlots_NoDup : NoDup timeSlots.
Proof. apply (bool_decide_eq_true_1 _). vm_compute. reflexivity. Qed.

(** Dropping one element from what a filter keeps. *)
Lemma filter_all_but_one {A} `{EqDecision A} (P Q : A → Prop)
    `{∀ y, Decision (P y)} `{∀ y, Decision (Q y)} (l : list A) (x : A) :
  NoDup l →
  (∀ y, Q y ↔ P y ∧ y ≠ x) →
  length (filter Q l)
  = (length (filter P l) - (if decide (x ∈ l ∧ P x) then 1 else 0))%nat.
Proof.
  intros Hnd HQ. induction Hnd as [|y l Hy Hnd IH].
  - by case_decide.
  - rewrite !filter_cons.
    assert (x ∈ l ∧ P x → (0 < length (filter P l))%nat) as Hpos.
    { intros [Hx HP]. assert (x ∈ filter P l) as Hin by (by apply list_elem_of_filter).
      destruct (filter P l); [by apply elem_of_nil in Hin | simpl; lia]. }
    destruct (decide (y = x)) as [->|Hne].
    + rewrite (decide_False (P := Q x)) by (rewrite HQ; tauto).
      rewrite IH. rewrite (decide_False (P := x ∈ l ∧ P x)) by tauto.
      destruct (decide (P x)) as [HP|HP].
      * rewrite decide_True by (split; [left|done]). simpl. lia.
      * rewrite decide_False by tauto. lia.
    + assert ((x ∈ y :: l ∧ P x) ↔ (x ∈ l ∧ P x)) as Hiff.
      { rewrite elem_of_cons. intuition congruence. }
      destruct (decide (P y)) as [HP|HP].
      * rewrite (decide_True (P := Q y)) by (rewrite HQ; tauto).
        simpl. rewrite IH. destruct (decide (x ∈ l ∧ P x)) as [Hx|Hx].
        -- rewrite decide_True by tauto. specialize (Hpos Hx). lia.
        -- rewrite decide_False by tauto. lia.
      * rewrite (decide_False (P := Q y)) by (rewrite HQ; tauto).
        rewrite IH. destruct (decide (x ∈ l ∧ P x)) as [Hx|Hx].
        -- by rewrite decide_True by tauto.
        -- by rewrite decide_False by tauto.
Qed.

Lemma booked_snoc appointments a k time :
  booked (appointments ++ [a]) k time
  ↔ booked appointments k time
    ∨ (status a ≠ "Didn't show up"%string
       ∧ appointment_date a = k ∧ appointment_time a = time).
Proof.
  unfold booked. split.
  - intros (b & Hb & H). apply elem_of_app in Hb as [Hb|Hb]; [left; eauto|].
    apply list_elem_of_singleton in Hb. subst b. by right.
  - intros [(b & Hb & H)|H].
    + exists b. split; [apply elem_of_app; by left | done].
    + exists a. split; [apply elem_of_app; right; by apply list_elem_of_singleton | done].
Qed.

(** A slot after one more stored appointment. *)
Lemma available_after_one_more zone appointments a st sel time :
  loadable (appointments ++ [a]) →
  selected st = Some sel →
  (isTimeSlotAvailable zone
     (loadBookedAppointments (Array (appointments ++ [a])) st) time = true
   ↔ isTimeSlotAvailable zone (loadBookedAppointments (Array appointments) st) time
     = true
     ∧ ¬ (status a ≠ "Didn't show up"%string
          ∧ appointment_date a = format_yyyy_MM_dd zone sel
          ∧ appointment_time a = time)).
Proof.
  intros Hload Hsel.
  assert (loadable appointments) as Hload' by (by apply Forall_app in Hload as [? _]).
  rewrite (Availability.isTimeSlotAvailable_selected zone
             (loadBookedAppointments (Array (appointments ++ [a])) st) sel time)
    by (by rewrite (proj1 (Availability.loadBookedAppointments_keeps _ st))).
  rewrite (Availability.isTimeSlotAvailable_selected zone
             (loadBookedAppointments (Array appointments) st) sel time)
    by (by rewrite (proj1 (Availability.loadBookedAppointments_keeps _ st))).
  rewrite (Availability.bookedSlots_loaded (appointments ++ [a]) st _ time Hload),
    (Availability.bookedSlots_loaded appointments st _ time Hload'),
    !Availability.has_partial_entry_loaded, booked_snoc.
  tauto.
Qed.

(** X3: with a date selected, one more stored appointment, when the loop of
    loadBookedAppointments still runs to its end (no appointment that counts
    is dated with a name of Object.prototype), lowers the number of available
    slots by one when its status is not "Didn't show up", its date is the
    selected one and its time is a slot of the list that was still available;
    in every other case the number stays the same. *)
Theorem one_more_appointment zone appointments a st sel :
  loadable (appointments ++ [a]) →
  selected st = Some sel →
  getAvailableTimesCount zone
    (loadBookedAppointments (Array (appointments ++ [a])) st)
  = (getAvailableTimesCount zone (loadBookedAppointments (Array appointments) st)
     - (if decide (status a ≠ "Didn't show up"%string
                   ∧ appointment_date a = format_yyyy_MM_dd zone sel
                   ∧ appointment_time a ∈ timeSlots
                   ∧ isTimeSlotAvailable zone
                       (loadBookedAppointments (Array appointments) st)
                       (appointment_time a) = true)
        then 1 else 0))%nat.
Proof.
  intros Hload Hsel. unfold getAvailableTimesCount.
  rewrite !(proj1 (Availability.loadBookedAppointments_keeps _ st)), Hsel.
  destruct (decide (status a ≠ "Didn't show up"%string
                    ∧ appointment_date a = format_yyyy_MM_dd zone sel))
    as [[Hlive Hdate]|Hnot].
  - rewrite (filter_all_but_one
      (fun time => isTimeSlotAvailable zone
                     (loadBookedAppointments (Array appointments) st) time = true)
      _ timeSlots (appointment_time a) timeSlots_NoDup).
    + destruct (decide (appointment_time a ∈ timeSlots ∧ _)) as [Hx|Hx].
      * by rewrite decide_True by tauto.
      * by rewrite decide_False by tauto.
    + intros time. rewrite (available_after_one_more zone appointments a st sel time Hload Hsel).
      split.
      * intros [Hav Hn]. split; [done|]. intros ->. by apply Hn.
      * intros [Hav Hne]. split; [done|]. intros (_ & _ & Heq). congruence.
  - rewrite decide_False by tauto. rewrite Nat.sub_0_r. f_equal.
    apply list_filter_iff. intros time.
    rewrite (available_after_one_more zone appointments a st sel time Hload Hsel). tauto.
Qed.

Lemma one_more_appointment_witness :
  getAvailableTimesCount 0
    (loadBookedAppointments (Array ([no_show_at_ten] ++ [confirmed_at_ten]))
       (picked Absent Absent (january_2024 0 8)))
  = 12%nat.
Proof.
  rewrite (one_more_appointment 0 [no_show_at_ten] confirmed_at_ten
             (picked Absent Absent (january_2024 0 8)) (january_2024 0 8)
             loadable_two_appointments eq_refl).
  reflexivity.
Defined.

(** One more appointment on which the loop throws gives every slot back. *)
Example one_stray_appointment :
  getAvailableTimesCount 0
    (loadBookedAppointments (Array [confirmed_at_ten])
       (picked Absent Absent (january_2024 0 8))) = 12%nat
  ∧ getAvailableTimesCount 0
      (loadBookedAppointments (Array ([confirmed_at_ten] ++ [stray_record]))
         (picked Absent Absent (january_2024 0 8))) = 13%nat.
Proof. by vm_compute. Qed.

End CalendarFacts.

(** ** More on the form *)
Module FormRules.
Import PatientForm PatientFormDefaults Scenario.

Lemma string_min_nil field n msg value :
  string_min field n msg value = [] ↔ (n ≤ String.length value)%nat.
Proof.
  unfold string_min. destruct (Nat.ltb_spec (String.length value) n); split;
    intros; (done || lia).
Qed.

Lemma email_or_empty_nil is_email value :
  email_or_empty is_email value = [] ↔ value = ""%string ∨ is_email value = true.
Proof.
  unfold email_or_empty. case_bool_decide as He; simpl.
  - split; [by left | done].
  - destruct (is_email value); split; [by right | done | done |].
    by intros [?|?].
Qed.

Lemma group_size_nil value :
  group_size value = [] ↔ ∃ n, value = Some n ∧ 1 ≤ n ≤ 50.
Proof.
  unfold group_size, number_min, number_max. destruct value as [n|].
  - destruct (Z.ltb_spec n 1), (Z.ltb_spec 50 n); simpl; split;
      try done; try (intros (m & [= <-] & ?); lia).
    intros _. exists n. split; [done | lia].
  - split; [done|]. by intros (n & ? & _).
Qed.

Lemma bookingSchema_nil is_email data :
  bookingSchema is_email data = [] ↔ passes is_email data.
Proof.
  unfold bookingSchema, passes.
  rewrite !app_nil, !string_min_nil, email_or_empty_nil, group_size_nil. tauto.
Qed.

Lemma handleSubmit_Some is_email data submitted :
  handleSubmit is_email data = Some submitted →
  passes is_email data ∧ submitted = to_object data.
Proof.
  unfold handleSubmit.
  destruct (bookingSchema is_email data) as [|i issues] eqn:Hs; [|done].
  intros [= <-]. split; [by apply bookingSchema_nil | done].
Qed.

(** X5: the form hands its record to the host exactly when the name has at
    least 2 characters, the e-mail is empty or an e-mail address, the phone
    has at least 10 characters, a service is chosen and the group size is a
    number from 1 to 50; otherwise nothing is handed on.  The service and
    the experience level are not compared with the lists on offer, and the
    three free-text fields are never refused. *)
Theorem handleSubmit_rules is_email data :
  (passes is_email data ∧ handleSubmit is_email data = Some (to_object data))
  ∨ (¬ passes is_email data ∧ handleSubmit is_email data = None).
Proof.
  unfold handleSubmit.
  destruct (bookingSchema is_email data) as [|i issues] eqn:Hs.
  - left. split; [by apply bookingSchema_nil | done].
  - right. split; [|done]. rewrite <- bookingSchema_nil, Hs. done.
Qed.

(** X6: every field is reported at most once, in the order of the schema,
    and only the five validated fields are ever reported. *)
Theorem one_issue_per_field is_email data :
  sublist (path <$> bookingSchema is_email data)
    ["customerName"; "email"; "phone"; "service"; "groupSize"]%string.
Proof.
  unfold bookingSchema, string_min, email_or_empty, group_size, number_min,
    number_max.
  destruct (_ <? 2)%nat, (bool_decide _ || is_email _), (_ <? 10)%nat, (_ <? 1)%nat;
    (destruct (groupSize data) as [n|];
     [destruct (Z.ltb_spec n 1), (Z.ltb_spec 50 n); try lia|]);
    simpl; repeat (first [apply sublist_nil | apply sublist_skip | apply sublist_cons]).
Qed.

Lemma to_object_lookup data :
  to_object data !! "customerName" = Some (JStr (customerName data))
  ∧ to_object data !! "email" = Some (JStr (email data))
  ∧ to_object data !! "phone" = Some (JStr (phone data))
  ∧ to_object data !! "service" = Some (JStr (service data))
  ∧ to_object data !! "groupSize" = Some (from_option JNum JUndefined (groupSize data))
  ∧ to_object data !! "specialRequests" = Some (JStr (specialRequests data))
  ∧ to_object data !! "emergencyContact" = Some (JStr (emergencyContact data))
  ∧ to_object data !! "experience" = Some (JStr (experience data)).
Proof. repeat split. Qed.

Lemma to_object_other data k :
  k ∉ schema_keys → to_object data !! k = None.
Proof.
  intros Hk. unfold to_object. apply not_elem_of_list_to_map_1.
  exact Hk.
Qed.

(** X7: a record the form handed on comes back as the form's default
    values when the host hands its data down again, whatever the host held
    before: going back to the form shows what was submitted. *)
Theorem defaultValues_after_submit is_email data submitted prev :
  handleSubmit is_email data = Some submitted →
  defaultValues (submitted ∪ prev) = data.
Proof.
  intros Hsub. apply handleSubmit_Some in Hsub as [Hpass ->].
  destruct Hpass as (_ & _ & _ & _ & n & Hn & Hrange).
  pose proof (to_object_lookup data) as (H1 & H2 & H3 & H4 & H5 & H6 & H7 & H8).
  unfold defaultValues.
  rewrite (lookup_union_Some_l _ prev _ _ H1), (lookup_union_Some_l _ prev _ _ H2),
    (lookup_union_Some_l _ prev _ _ H3), (lookup_union_Some_l _ prev _ _ H4),
    (lookup_union_Some_l _ prev _ _ H5), (lookup_union_Some_l _ prev _ _ H6),
    (lookup_union_Some_l _ prev _ _ H7), (lookup_union_Some_l _ prev _ _ H8).
  destruct data as [? ? ? ? gs ? ? ?]. simpl in *. subst gs. simpl.
  rewrite bool_decide_eq_false_2 by lia. done.
Qed.

Lemma defaultValues_after_submit_witness :
  defaultValues (to_object (ann "1234567890") ∪ ∅) = ann "1234567890".
Proof.
  apply (defaultValues_after_submit (fun _ => false) (ann "1234567890")).
  reflexivity.
Defined.

(** With nothing handed down the form starts empty, with a group of one,
    and cannot be submitted as it is; a stored group size of 0 shows as 1. *)
Example defaultValues_empty is_email :
  defaultValues ∅
  = {| customerName := ""; email := ""; phone := ""; service := "";
       groupSize := Some 1; specialRequests := ""; emergencyContact := "";
       experience := "" |}
  ∧ handleSubmit is_email (defaultValues ∅) = None
  ∧ groupSize (defaultValues {[ "groupSize" := JNum 0 ]}) = Some 1.
Proof. repeat split. Qed.

End FormRules.

(** ** More on the hosts *)
Module HostFacts.
Import Wizard WizardChrome BookingApp Scenario.

Lemma reachable_steps h st :
  reachable h st → currentStep st = 1 ∨ currentStep st = 2 ∨ currentStep st = 3.
Proof.
  induction 1 as [|st e st' Hst IH Hd]; [by left|].
  apply WizardFacts.dispatch_inv in Hd. destruct e; [lia..|].
  subst st'. destruct h; simpl; [by left | done].
Qed.

(** X8: a host never shows a blank step: in every state it can reach one of
    the three views is rendered, the title is not empty, exactly one entry of
    the progress row is active and the entries before it, and only they, are
    completed. *)
Theorem no_blank_step h st :
  reachable h st →
  renderStep st ≠ NoView
  ∧ getStepTitle st ≠ ""%string
  ∧ length (List.filter (isActive st) steps) = 1%nat
  ∧ Z.of_nat (length (List.filter (isCompleted st) steps)) = currentStep st - 1.
Proof.
  intros Hst. apply reachable_steps in Hst.
  unfold renderStep, getStepTitle, isActive, isCompleted, steps.
  destruct Hst as [Hs|[Hs|Hs]]; rewrite Hs; by vm_compute.
Qed.

Lemma no_blank_step_witness :
  renderStep at_confirmation ≠ NoView
  ∧ getStepTitle at_confirmation ≠ ""%string
  ∧ length (List.filter (isActive at_confirmation) steps) = 1%nat
  ∧ Z.of_nat (length (List.filter (isCompleted at_confirmation) steps))
    = currentStep at_confirmation - 1.
Proof.
  apply (no_blank_step Modal).
  apply (WizardFacts.reachable_run Modal three_steps initial);
    [apply reachable_initial | reflexivity].
Defined.

(** X9: from step 1, choosing a date and a time and then going back leads to
    step 1 again with that date and time handed to the calendar as its
    selection, and every other property of the data as it was. *)
Theorem back_to_the_calendar h st date time :
  currentStep st = 1 →
  ∃ st',
    run h [DateTimeSelect date time; Back] st = Some st'
    ∧ currentStep st' = 1
    ∧ selectedDate st' = Some (JStr date)
    ∧ selectedTime st' = Some (JStr time)
    ∧ ∀ k : string, k ≠ "bookingDate"%string → k ≠ "bookingTime"%string →
        bookingData st' !! k = bookingData st !! k.
Proof.
  intros Hs. eexists. split.
  - unfold run, dispatch, renderStep. rewrite Hs. simpl.
    unfold renderStep. simpl. rewrite Hs. simpl. reflexivity.
  - simpl. rewrite Hs. split; [done|]. unfold selectedDate, selectedTime. simpl.
    split; [|split].
    + apply lookup_union_Some_l. by rewrite lookup_insert_eq.
    + apply lookup_union_Some_l.
      by rewrite lookup_insert_ne, lookup_singleton_eq by done.
    + intros k Hd Ht. rewrite lookup_union_r; [done|].
      by rewrite lookup_insert_ne, lookup_singleton_ne by done.
Qed.

Lemma back_to_the_calendar_witness :
  ∃ st',
    run Page [DateTimeSelect "2024-01-08" "10:00"; Back] initial = Some st'
    ∧ currentStep st' = 1
    ∧ selectedDate st' = Some (JStr "2024-01-08")
    ∧ selectedTime st' = Some (JStr "10:00")
    ∧ ∀ k : string, k ≠ "bookingDate"%string → k ≠ "bookingTime"%string →
        bookingData st' !! k = bookingData initial !! k.
Proof. apply (back_to_the_calendar Page initial "2024-01-08" "10:00"). reflexivity. Defined.

Lemma dispatch_handle h e st st' :
  dispatch h e st = Some st' → st' = handle h e st.
Proof. unfold dispatch. destruct (wired _ _); [by intros [= <-] | done]. Qed.

Lemma handleContinue_Some zone cal date time :
  AppointmentCalendar.handleContinue zone cal = Some (date, time) →
  time ≠ ""%string
  ∧ ∃ sel, AppointmentCalendar.selected cal = Some sel
           ∧ date = DateFns.format_yyyy_MM_dd zone sel.
Proof.
  unfold AppointmentCalendar.handleContinue.
  destruct (AppointmentCalendar.selected cal) as [sel|]; [|done].
  case_bool_decide as Ht; [|done]. intros [= <- <-]. eauto.
Qed.

Lemma to_object_keys form k :
  is_Some (PatientForm.to_object form !! k) ↔ k ∈ PatientFormDefaults.schema_keys.
Proof.
  split.
  - intros Hk. destruct (decide (k ∈ PatientFormDefaults.schema_keys)) as [|Hn];
      [done|]. rewrite (FormRules.to_object_other form k Hn) in Hk.
    by destruct Hk.
  - unfold PatientFormDefaults.schema_keys. rewrite !elem_of_cons, elem_of_nil.
    intros [->|[->|[->|[->|[->|[->|[->|[->|[]]]]]]]]]; eexists; reflexivity.
Qed.

(** X10: in every state a host reaches through the calendar and the form,
    the data hold no property besides the ten of a BookingData; from step 2
    on they hold a formatted date and a non-empty time; and at step 3 they
    hold the eight fields of a record that passed the schema.  So the
    confirmation is only ever shown a complete, validated booking. *)
Theorem confirmation_sees_a_full_booking zone is_email h st :
  reachable_ui zone is_email h st → well_filled zone is_email st.
Proof.
  induction 1 as [|st e st' Hst IH He Hd].
  - split; [|split]; simpl; [|lia|lia].
    intros k Hk. rewrite lookup_empty in Hk. by destruct Hk.
  - pose proof (WizardFacts.dispatch_inv h e st st' Hd) as Hinv.
    apply dispatch_handle in Hd. subst st'.
    destruct IH as (Hkeys & Hdate & Hform).
    destruct He as [cal date time Hc|form data Hsub| |].
    + destruct Hinv as [Hs Hs']. apply handleContinue_Some in Hc as (Ht & sel & _ & ->).
      split; [|split].
      * intros k. simpl. rewrite lookup_union_is_Some.
        intros [Hk|Hk]; [|by apply Hkeys].
        unfold booking_keys. rewrite !elem_of_cons.
        destruct (decide (k = "bookingDate"%string)) as [->|Hd]; [by left|].
        destruct (decide (k = "bookingTime"%string)) as [->|Ht']; [right; by left|].
        rewrite lookup_insert_ne, lookup_singleton_ne in Hk by done. by destruct Hk.
      * intros _. exists sel, time. simpl. split; [|split; [|done]].
        -- apply lookup_union_Some_l. by rewrite lookup_insert_eq.
        -- apply lookup_union_Some_l.
           by rewrite lookup_insert_ne, lookup_singleton_eq by done.
      * simpl in *. lia.
    + destruct Hinv as [Hs Hs'].
      apply FormRules.handleSubmit_Some in Hsub as [Hpass ->].
      split; [|split].
      * intros k. simpl. rewrite lookup_union_is_Some.
        intros [Hk|Hk]; [|by apply Hkeys].
        apply to_object_keys in Hk. unfold booking_keys. by do 2 right.
      * intros _. destruct Hdate as (sel & time & Hd & Ht & Hne); [lia|].
        exists sel, time. simpl.
        rewrite !lookup_union_r by
          (apply FormRules.to_object_other; unfold PatientFormDefaults.schema_keys;
           rewrite !elem_of_cons, elem_of_nil; intuition discriminate).
        done.
      * intros _. exists form. split; [done|]. intros k Hk. simpl.
        destruct (proj2 (to_object_keys form k) Hk) as [v Hv]. rewrite Hv.
        by apply lookup_union_Some_l.
    + destruct Hinv as [Hs Hs']. split; [done|]. simpl in *.
      split; [intros ?; apply Hdate; lia | lia].
    + subst. destruct h; simpl.
      * split; [|split]; simpl; [|lia|lia].
        intros k Hk. rewrite lookup_empty in Hk. by destruct Hk.
      * done.
Qed.

Lemma confirmation_sees_a_full_booking_witness :
  well_filled 0 (fun _ => false) at_confirmation.
Proof.
  apply (confirmation_sees_a_full_booking 0 (fun _ => false) Modal).
  apply (reachable_ui_dispatch 0 (fun _ => false) Modal
           (handleStepComplete
              {[ "bookingDate" := JStr "2024-01-08"; "bookingTime" := JStr "10:00" ]}
              initial)
           (Submit (PatientForm.to_object (ann "1234567890")))).
  - apply (reachable_ui_dispatch 0 (fun _ => false) Modal initial
             (DateTimeSelect "2024-01-08" "10:00")).
    + apply reachable_ui_initial.
    + apply (from_calendar 0 (fun _ => false)
               (AppointmentCalendar.handleTimeSelect "10:00"
                  (AvailabilitySpec.picked Absent Absent
                     (AvailabilitySpec.january_2024 0 8)))).
      reflexivity.
    + reflexivity.
  - apply (from_form 0 (fun _ => false) (ann "1234567890")). reflexivity.
  - reflexivity.
Defined.

End HostFacts.

(** ** More on the confirm action *)
Module ConfirmFacts.
Import DateFns BookingConfirmation ConfirmRuns Scenario.

(** Storage either serves the action or fails it. *)
Lemma storage_cases w :
  (readable w = true ∧ writable w = true
   ∧ ∃ items, parse_or_empty (paintball_bookings w) = Some items)
  ∨ (readable w = false
     ∨ parse_or_empty (paintball_bookings w) = None
     ∨ writable w = false).
Proof.
  destruct (readable w), (writable w), (parse_or_empty (paintball_bookings w));
    eauto 6.
Qed.

Lemma effects_since_app w (es : list effect) w' :
  trace w' = trace w ++ es → App.effects_since w w' = es.
Proof. intros H. unfold App.effects_since. by rewrite H, drop_app_length. Qed.

(** X11: the action never throws to its caller, whatever storage does: it
    completes, and its effects are one of two sequences, the success toast
    with the close timer or the logged error with the failure toast, each
    between setting and clearing isSubmitting. *)
Theorem confirm_never_throws bookingData w :
  (handleConfirmBooking bookingData w).1 = Return ()
  ∧ (App.effects_since w (handleConfirmBooking bookingData w).2
     = [SetIsSubmitting true;
        Toast "Paintball Session Booked Successfully!" false;
        SetTimeout_onClose 2000;
        SetIsSubmitting false]
     ∨ App.effects_since w (handleConfirmBooking bookingData w).2
       = [SetIsSubmitting true; ConsoleError; Toast "Booking Failed" true;
          SetIsSubmitting false]).
Proof.
  destruct (storage_cases w) as [(Hr & Hw & items & Hp)|Hfail].
  - rewrite (ConfirmationFacts.handleConfirmBooking_success bookingData w items Hr Hw Hp).
    split; [done|]. left. by apply effects_since_app.
  - rewrite (ConfirmationFacts.handleConfirmBooking_failure bookingData w Hfail).
    split; [done|]. right. by apply effects_since_app.
Qed.

(** X12: the action only ever appends: the records stored before it are a
    prefix of the records stored after it, and at most one record is added,
    whether the action succeeds or fails. *)
Theorem confirm_only_appends bookingData w :
  records w `prefix_of` records (handleConfirmBooking bookingData w).2
  ∧ (length (records (handleConfirmBooking bookingData w).2)
     ≤ S (length (records w)))%nat.
Proof.
  destruct (storage_cases w) as [(Hr & Hw & items & Hp)|Hfail].
  - rewrite (ConfirmationFacts.handleConfirmBooking_success bookingData w items Hr Hw Hp).
    unfold records. simpl. rewrite Hp. simpl. split.
    + by apply prefix_app_r.
    + rewrite length_app. simpl. lia.
  - rewrite (ConfirmationFacts.handleConfirmBooking_failure bookingData w Hfail).
    unfold records. simpl. split; [done | lia].
Qed.

Lemma booking_of_other bookingId bookingData created updated booked k :
  k ∉ stamped →
  stringify_object (booking_of bookingId bookingData created updated booked) !! k
  = match bookingData !! k with
    | Some v => stringify_value v
    | None => if decide (k = "id"%string) then Some (JsonStr bookingId) else None
    end.
Proof.
  unfold stamped. rewrite !not_elem_of_cons. intros (H1 & H2 & H3 & H4 & _).
  unfold stringify_object, booking_of. rewrite lookup_omap.
  rewrite !lookup_insert_ne by done. rewrite lookup_union.
  destruct (bookingData !! k) as [v|] eqn:Hk.
  - by destruct ({[ "id" := JStr bookingId ]} !! k).
  - destruct (decide (k = "id"%string)) as [->|Hid].
    + by rewrite lookup_singleton_eq.
    + by rewrite lookup_singleton_ne.
Qed.

(** X13: the record a successful action stores carries, besides the four
    stamped properties, every property of the booking data as JSON writes it
    (one holding undefined is left out); the generated identifier is stored
    under "id" only when the data have no "id" of their own, and nothing
    else is stored. *)
Theorem stored_record_carries_the_data bookingData w items :
  readable w = true →
  writable w = true →
  parse_or_empty (paintball_bookings w) = Some items →
  ∃ r,
    records (handleConfirmBooking bookingData w).2 = items ++ [r]
    ∧ ∀ k : string, k ∉ stamped →
        r !! k = match bookingData !! k with
                 | Some v => stringify_value v
                 | None =>
                     if decide (k = "id"%string)
                     then Some (JsonStr (pretty (clock w (reads w))))
                     else None
                 end.
Proof.
  intros Hr Hw Hp.
  rewrite (ConfirmationFacts.handleConfirmBooking_success bookingData w items Hr Hw Hp).
  eexists. split; [reflexivity|]. intros k Hk. by apply booking_of_other.
Qed.

Lemma stored_record_carries_the_data_witness :
  ∃ r,
    records (handleConfirmBooking valid_booking (browser ticking Absent true true)).2
    = [] ++ [r]
    ∧ r !! "phone" = Some (JsonStr "1234567890")
    ∧ r !! "id" = Some (JsonStr "1704067200000").
Proof.
  destruct (stored_record_carries_the_data valid_booking
              (browser ticking Absent true true) [] eq_refl eq_refl eq_refl)
    as (r & Hrec & Hr).
  exists r. split; [exact Hrec|]. split.
  - rewrite (Hr "phone"%string); [reflexivity|].
    unfold stamped. rewrite !not_elem_of_cons. repeat split; try discriminate.
    apply not_elem_of_nil.
  - rewrite (Hr "id"%string); [reflexivity|].
    unfold stamped. rewrite !not_elem_of_cons. repeat split; try discriminate.
    apply not_elem_of_nil.
Defined.

(** X14: when the action succeeds, the timer it set closes the host once it
    fires: the dialog is back at step 1 with no data, the page keeps its
    state (it navigates away). *)
Theorem success_closes_the_host bookingData w items h st :
  readable w = true →
  writable w = true →
  parse_or_empty (paintball_bookings w) = Some items →
  App.fire_timers h
    (App.effects_since w (handleConfirmBooking bookingData w).2) st
  = Wizard.handleClose h st.
Proof.
  intros Hr Hw Hp.
  rewrite (ConfirmationFacts.handleConfirmBooking_success bookingData w items Hr Hw Hp).
  erewrite effects_since_app by reflexivity. reflexivity.
Qed.

Lemma success_closes_the_host_witness :
  App.fire_timers Wizard.Modal
    (App.effects_since (browser ticking Absent true true)
       (handleConfirmBooking valid_booking (browser ticking Absent true true)).2)
    at_confirmation
  = Wizard.initial.
Proof.
  apply (success_closes_the_host valid_booking (browser ticking Absent true true) []
           Wizard.Modal at_confirmation eq_refl eq_refl eq_refl).
Defined.

Lemma ids_in_order_step bookingData w :
  clock_advances w →
  bookingData !! "id" = None →
  ids_in_order w →
  ids_in_order (handleConfirmBooking bookingData w).2
  ∧ clock_advances (handleConfirmBooking bookingData w).2
  ∧ length (records (handleConfirmBooking bookingData w).2)
    = S (length (records w)).
Proof.
  intros Hclock Hid (Hr & Hw & [items Hp] & Hnd & Hold).
  rewrite (ConfirmationFacts.handleConfirmBooking_success bookingData w items Hr Hw Hp).
  unfold ids_in_order, clock_advances, ids, records in *. simpl.
  rewrite Hp in *. simpl in *.
  split; [|split; [done | rewrite length_app; simpl; lia]].
  split; [done|]. split; [done|]. split; [by eexists|]. split.
  - rewrite fmap_app. apply NoDup_app. split; [done|]. split; [|apply NoDup_singleton].
    intros x Hx Hx'. apply list_elem_of_singleton in Hx'. subst x.
    apply list_elem_of_fmap in Hx as (r & Heq & Hin).
    destruct (Hold r Hin) as (t & Ht & Hlt).
    rewrite ConfirmationFacts.booking_of_id in Heq by done. rewrite Ht in Heq.
    injection Heq as Heq. apply (inj pretty) in Heq. lia.
  - intros r Hin. apply elem_of_app in Hin as [Hin|Hin].
    + destruct (Hold r Hin) as (t & Ht & Hlt). exists t. split; [done|].
      pose proof (Hclock (reads w) (4 + reads w)%nat ltac:(lia)) as Hadv.
      simpl in Hadv. lia.
    + apply list_elem_of_singleton in Hin. subst r.
      exists (clock w (reads w)). split; [by apply ConfirmationFacts.booking_of_id|].
      apply Hclock. lia.
Qed.

Lemma confirm_all_in_order bookings w :
  clock_advances w →
  Forall (fun bookingData : object => bookingData !! "id" = None) bookings →
  ids_in_order w →
  ids_in_order (confirm_all bookings w)
  ∧ length (records (confirm_all bookings w))
    = (length (records w) + length bookings)%nat.
Proof.
  intros Hclock Hall. revert w Hclock.
  induction Hall as [|bookingData rest Hid Hrest IH]; intros w Hclock Hw; simpl.
  - split; [done | lia].
  - destruct (ids_in_order_step bookingData w Hclock Hid Hw) as (Hw' & Hclock' & Hlen).
    destruct (IH _ Hclock' Hw') as [Hfinal Hlen']. split; [done|]. lia.
Qed.

(** X16: confirm actions run one after the other on storage that serves
    them, starting with nothing stored, with data that carry no "id" and a
    clock that advances from one action to the next, store one record each
    and give them pairwise different identifiers. *)
Theorem repeated_confirms_differ bookings w :
  readable w = true →
  writable w = true →
  parse_or_empty (paintball_bookings w) = Some [] →
  clock_advances w →
  Forall (fun bookingData : object => bookingData !! "id" = None) bookings →
  length (records (confirm_all bookings w)) = length bookings
  ∧ NoDup (ids (confirm_all bookings w)).
Proof.
  intros Hr Hw Hp Hclock Hall.
  assert (ids_in_order w) as Hin.
  { unfold ids_in_order, ids, records. rewrite Hp. simpl.
    repeat split; [done | done | by eexists | apply NoDup_nil_2 |].
    intros r Hr'. by apply elem_of_nil in Hr'. }
  destruct (confirm_all_in_order bookings w Hclock Hall Hin)
    as ((_ & _ & _ & Hnd & _) & Hlen).
  split; [|done]. rewrite Hlen. unfold records. rewrite Hp. done.
Qed.

Lemma repeated_confirms_differ_witness :
  length (records (confirm_all [valid_booking; valid_booking]
                     (browser ticking Absent true true))) = 2%nat
  ∧ NoDup (ids (confirm_all [valid_booking; valid_booking]
                  (browser ticking Absent true true))).
Proof.
  apply (repeated_confirms_differ [valid_booking; valid_booking]
           (browser ticking Absent true true)); try reflexivity.
  - intros n m Hnm. unfold browser, ticking. simpl. lia.
  - repeat constructor.
Defined.

(** A clock reading met twice, two equal identifiers: the run that
    [repeated_confirms_differ] excludes. *)
Example repeated_confirms_on_a_clock_set_back :
  ids (confirm_all [valid_booking; valid_booking] (browser set_back Absent true true))
  = [Some (JsonStr "1704067200000"); Some (JsonStr "1704067200000")].
Proof. vm_compute. reflexivity. Qed.

Lemma fresh_id_witness :
  ∃ r,
    records (handleConfirmBooking valid_booking
               (handleConfirmBooking valid_booking
                  (browser ticking Absent true true)).2).2
    = records (handleConfirmBooking valid_booking
                 (browser ticking Absent true true)).2 ++ [r]
    ∧ ∀ r', r' ∈ records (handleConfirmBooking valid_booking
                            (browser ticking Absent true true)).2 →
            r' !! "id" ≠ r !! "id".
Proof.
  apply (ConfirmationFacts.fresh_id_on_a_later_reading valid_booking
           (handleConfirmBooking valid_booking (browser ticking Absent true true)).2);
    try reflexivity.
  intros r Hr. vm_compute in Hr. apply list_elem_of_singleton in Hr. subst r.
  exists 1704067200000. split; [reflexivity | vm_compute; reflexivity].
Defined.

End ConfirmFacts.

(** ** The time panel *)
Module PanelFacts.
Import AppointmentCalendar CalendarControls.

Lemma enabled_buttons zone st (slots : list string) :
  length (List.filter (fun button : string * bool => negb button.2)
            (slot_button zone st <$> slots))
  = length (filter (fun time => isTimeSlotAvailable zone st time = true) slots).
Proof.
  induction slots as [|time slots IH]; [done|].
  rewrite fmap_cons, filter_cons. simpl.
  destruct (isTimeSlotAvailable zone st time); simpl; by rewrite ?IH.
Qed.

(** X17: the time panel shows the hint exactly when no date is selected and
    the notice exactly when a date is selected and none of the 13 slots is
    available; otherwise the morning and the afternoon block together hold
    one button per slot, in the order of the list, a button is disabled
    exactly when its slot is not available, and the number of enabled buttons
    is the number the badge shows, which is not 0. *)
Theorem timePanel_buttons zone st :
  match timePanel zone st with
  | PleaseSelectADate => selected st = None
  | NoAvailableTimes =>
      is_Some (selected st)
      ∧ ∀ time, time ∈ timeSlots → isTimeSlotAvailable zone st time = false
  | Blocks morning afternoon =>
      is_Some (selected st)
      ∧ morning ++ afternoon = slot_button zone st <$> timeSlots
      ∧ length (List.filter (fun button : string * bool => negb button.2)
                  (morning ++ afternoon))
        = getAvailableTimesCount zone st
      ∧ getAvailableTimesCount zone st ≠ 0%nat
  end.
Proof.
  unfold timePanel, getAvailableTimesCount.
  destruct (selected st) as [sel|] eqn:Hsel; [|done].
  case_bool_decide as Hcount.
  - split; [by eexists|]. intros time Htime.
    apply length_zero_iff_nil in Hcount.
    destruct (isTimeSlotAvailable zone st time) eqn:Hav; [|done].
    assert (time ∈ filter (fun time => isTimeSlotAvailable zone st time = true)
                     timeSlots) as Hin by (by apply list_elem_of_filter).
    rewrite Hcount in Hin. by apply elem_of_nil in Hin.
  - split; [by eexists|]. split; [reflexivity|]. split; [|done].
    change (length (List.filter (fun button : string * bool => negb button.2)
                      (slot_button zone st <$> timeSlots))
            = length (filter (fun time => isTimeSlotAvailable zone st time = true)
                        timeSlots)).
    apply enabled_buttons.
Qed.

End PanelFacts.
